(** * Smart Content Summarizer: the validated request / prompt / response core

    A shallow embedding of

      - [backend/src/app.py]: the [SummaryRequest] model with its field
        constraints and validators, and the [/summarize] handler
        [create_summary];
      - [backend/src/utils/llm_utils.py]: [SmartSummarizer], its prompt
        template, its chain and [summarize].

    Python [str] values are modelled by [string]: one [ascii] per code point,
    so the development covers text over the code points 0..255.  Python [int]
    is [Z], [len] returns a [Z].  A request body is modelled twice: as a
    [request_body], with every field absent, JSON [null], or a value of the
    JSON type the model declares for it; and as a [json_body], where the
    four string fields hold any JSON value, so that the type errors of the
    model can be stated ([summary_length] is kept to JSON integers: the
    conversions of other JSON values to [int] are not modelled).  The two
    agree on the bodies they share.  The model backend is an opaque function from the submitted call to
    either a completion or a raised exception; every call to it is recorded
    in a trace, so that "the backend is not called" is a statement about the
    trace. *)

From Stdlib Require Import String Ascii List ZArith Lia Bool QArith.
From Stdlib Require Import DecimalString.
Import ListNotations.

Local Open Scope string_scope.
Local Open Scope Z_scope.

(* ================================================================== *)
(** ** Python [str] primitives *)
(* ================================================================== *)

Module PyStr.

(** [len(s)] *)
Definition len (s : string) : Z := Z.of_nat (String.length s).

(** [bool(s)]: the empty string is falsy. *)
Definition truthy (s : string) : bool :=
  match s with
  | EmptyString => false
  | String _ _ => true
  end.

(** [c.isspace()] for the code points below 256: TAB, LF, VT, FF, CR,
    the separators FS, GS, RS, US, SPACE, NEL (0x85) and NBSP (0xA0). *)
Definition isspace (c : ascii) : bool :=
  let n := N_of_ascii c in
  ((9 <=? n) && (n <=? 13) || (28 <=? n) && (n <=? 32)
   || (n =? 133) || (n =? 160))%N.

(** [s.lstrip()] *)
Fixpoint lstrip (s : string) : string :=
  match s with
  | EmptyString => EmptyString
  | String c s' => if isspace c then lstrip s' else s
  end.

(** [s.rstrip()] *)
Fixpoint rstrip (s : string) : string :=
  match s with
  | EmptyString => EmptyString
  | String c s' =>
      match rstrip s' with
      | EmptyString => if isspace c then EmptyString else String c EmptyString
      | r => String c r
      end
  end.

(** [s.strip()] *)
Definition strip (s : string) : string := rstrip (lstrip s).

(** [s.startswith(p)] *)
Definition startswith (s p : string) : bool := String.prefix p s.

(** [needle in hay] *)
Fixpoint contains (needle hay : string) : bool :=
  String.prefix needle hay
  || match hay with
     | EmptyString => false
     | String _ hay' => contains needle hay'
     end.

(** [s.split()] with no separator: runs of whitespace separate the words,
    leading and trailing whitespace yields no word.  [tok] is the word being
    scanned. *)
Fixpoint split_from (tok s : string) : list string :=
  match s with
  | EmptyString => if truthy tok then [tok] else []
  | String c s' =>
      if isspace c
      then (if truthy tok then tok :: split_from EmptyString s'
            else split_from EmptyString s')
      else split_from (tok ++ String c EmptyString) s'
  end.

Definition split (s : string) : list string := split_from EmptyString s.

(** [sep.join(xs)] *)
Definition join (sep : string) (xs : list string) : string :=
  String.concat sep xs.

(** [str(n)] for an [int]. *)
Definition str_int (z : Z) : string := NilZero.string_of_int (Z.to_int z).

(** Two lower-case hexadecimal digits, as in the escape [\xhh]. *)
Definition hex_digit (n : N) : ascii :=
  (if n <? 10 then ascii_of_N (48 + n) else ascii_of_N (87 + n))%N.

Definition hex2 (c : ascii) : string :=
  let n := N_of_ascii c in
  String (hex_digit (n / 16)) (String (hex_digit (n mod 16)) EmptyString).

Definition squote : ascii := "039"%char.
Definition dquote : ascii := "034"%char.
Definition backslash : ascii := "092"%char.

Fixpoint has_char (c : ascii) (s : string) : bool :=
  match s with
  | EmptyString => false
  | String d s' => Ascii.eqb c d || has_char c s'
  end.

(** [c.isprintable()] for the code points 128..255: the C1 controls,
    NBSP and the soft hyphen are not printable. *)
Definition printable_high (n : N) : bool :=
  ((160 <? n) && negb (n =? 173))%N.

(** One character of [repr(s)], for the chosen [quote]. *)
Definition repr_char (quote c : ascii) : string :=
  let n := N_of_ascii c in
  if Ascii.eqb c quote || Ascii.eqb c backslash
  then String backslash (String c EmptyString)
  else if (n =? 9)%N then String backslash "t"
  else if (n =? 10)%N then String backslash "n"
  else if (n =? 13)%N then String backslash "r"
  else if ((n <? 32) || (n =? 127))%N then String backslash ("x" ++ hex2 c)
  else if (n <? 127)%N then String c EmptyString
  else if printable_high n then String c EmptyString
  else String backslash ("x" ++ hex2 c).

Fixpoint repr_body (quote : ascii) (s : string) : string :=
  match s with
  | EmptyString => EmptyString
  | String c s' => repr_char quote c ++ repr_body quote s'
  end.

(** [repr(s)]: single quotes, unless the text has a single quote and no
    double quote. *)
Definition repr_str (s : string) : string :=
  let quote :=
    if has_char squote s && negb (has_char dquote s) then dquote else squote in
  String quote (repr_body quote s ++ String quote EmptyString).

End PyStr.

(* ================================================================== *)
(** ** Python values, dictionaries and [str()] *)
(* ================================================================== *)

(** The values that reach the prompt: [None], an [int], a [str], or a
    dictionary (insertion-ordered, as Python's [dict] is). *)
#[warnings="-register-all"] Inductive pyval : Type :=
| PNone
| PInt (z : Z)
| PStr (s : string)
| PDict (items : list (string * pyval)).

Definition pydict : Type := list (string * pyval).

Fixpoint repr (v : pyval) : string :=
  match v with
  | PNone => "None"
  | PInt z => PyStr.str_int z
  | PStr s => PyStr.repr_str s
  | PDict items =>
      "{" ++ (fix repr_items (kvs : list (string * pyval)) : string :=
                match kvs with
                | [] => EmptyString
                | (k, x) :: rest =>
                    PyStr.repr_str k ++ ": " ++ repr x
                    ++ match rest with
                       | [] => EmptyString
                       | _ :: _ => ", " ++ repr_items rest
                       end
                end) items ++ "}"
  end.

(** [str(v)], which is what formatting a template field applies. *)
Definition str (v : pyval) : string :=
  match v with
  | PStr s => s
  | _ => repr v
  end.

Definition of_opt_str (o : option string) : pyval :=
  match o with Some s => PStr s | None => PNone end.

Definition of_opt_int (o : option Z) : pyval :=
  match o with Some z => PInt z | None => PNone end.

Fixpoint lookup (k : string) (d : pydict) : option pyval :=
  match d with
  | [] => None
  | (k', v) :: d' => if String.eqb k k' then Some v else lookup k d'
  end.

(* ================================================================== *)
(** ** Exceptions and the call trace *)
(* ================================================================== *)

(** The exceptions of the program: FastAPI's [HTTPException], whatever the
    backend call raises (carried by its text [str(e)]), and the [KeyError] of
    a template variable that has no value. *)
Inductive exn : Type :=
| HTTPException (status_code : Z) (detail : string)
| BackendException (text : string)
| KeyError (key : string).

(** [str(e)].  [HTTPException.__str__] is Starlette's
    [f"{self.status_code}: {self.detail}"]. *)
Definition exn_str (e : exn) : string :=
  match e with
  | HTTPException status_code detail =>
      PyStr.str_int status_code ++ ": " ++ detail
  | BackendException text => text
  | KeyError key => PyStr.repr_str key
  end.

Inductive role : Type := system | user.

Definition message : Type := (role * string)%type.

(** What is submitted to the model backend. *)
Record llm_call : Type := mk_llm_call {
  call_model : string;
  call_temperature : Q;
  call_messages : list message
}.

(** What the backend call does: return a completion or raise. *)
Inductive outcome : Type :=
| Completion (text : string)
| Raises (text : string).

(** The arguments of [SmartSummarizer.summarize] (after [self]). *)
Record summarize_args : Type := mk_args {
  arg_content : string;
  arg_content_type : option string;
  arg_summary_length : option Z;
  arg_style : option string;
  arg_focus_points : option string
}.

Inductive event : Type :=
| CallSummarize (args : summarize_args)
| CallBackend (call : llm_call).

(** Computations that may raise and that log the calls they make. *)
Definition M (A : Type) : Type := ((exn + A) * list event)%type.

Definition ret {A} (a : A) : M A := (inr a, []).

Definition raise {A} (e : exn) : M A := (inl e, []).

Definition emit (ev : event) : M unit := (inr tt, [ev]).

Definition bind {A B} (m : M A) (k : A -> M B) : M B :=
  match m with
  | (inl e, t) => (inl e, t)
  | (inr a, t) => let (r, t') := k a in (r, (t ++ t')%list)
  end.

(** [try: m  except Exception as e: h e] *)
Definition try_except {A} (m : M A) (h : exn -> M A) : M A :=
  match m with
  | (inl e, t) => let (r, t') := h e in (r, (t ++ t')%list)
  | (inr a, t) => (inr a, t)
  end.

Notation "x <- m ;; k" := (bind m (fun x => k))
  (at level 61, m at next level, right associativity).
Notation "m ;;; k" := (bind m (fun _ => k))
  (at level 61, right associativity).

Definition result_of {A} (m : M A) : exn + A := fst m.
Definition trace_of {A} (m : M A) : list event := snd m.

Definition is_backend_call (ev : event) : bool :=
  match ev with CallBackend _ => true | CallSummarize _ => false end.

Definition is_summarize_call (ev : event) : bool :=
  match ev with CallSummarize _ => true | CallBackend _ => false end.

(* ================================================================== *)
(** ** The LangChain pieces the summarizer is built from *)
(* ================================================================== *)

Module LangChain.

(** An f-string template: literal text and [{name}] fields. *)
Inductive piece : Type :=
| Lit (text : string)
| Field (name : string).

Definition template : Type := list piece.

(** [template.format] with keyword arguments [kwargs]: every field is replaced by [str()] of its
    value; the first field without a value raises [KeyError]. *)
Fixpoint format (t : template) (kwargs : pydict) : exn + string :=
  match t with
  | [] => inr EmptyString
  | Lit text :: t' =>
      match format t' kwargs with
      | inl e => inl e
      | inr rest => inr (text ++ rest)
      end
  | Field name :: t' =>
      match lookup name kwargs with
      | None => inl (KeyError name)
      | Some v =>
          match format t' kwargs with
          | inl e => inl e
          | inr rest => inr (str v ++ rest)
          end
      end
  end.

(** [ChatPromptTemplate.from_messages([(role, template), ...])] *)
Definition ChatPromptTemplate : Type := list (role * template).

Fixpoint format_messages (p : ChatPromptTemplate) (kwargs : pydict)
  : exn + list message :=
  match p with
  | [] => inr []
  | (r, t) :: p' =>
      match format t kwargs with
      | inl e => inl e
      | inr text =>
          match format_messages p' kwargs with
          | inl e => inl e
          | inr rest => inr ((r, text) :: rest)
          end
      end
  end.

(** [RunnablePassthrough().invoke(x)] returns its input unchanged. *)
Definition RunnablePassthrough (input : pyval) : pyval := input.

(** A dictionary of runnables is a [RunnableParallel]: invoked on an input,
    every entry is invoked on that same input. *)
Definition RunnableParallel : Type := list (string * (pyval -> pyval)).

Definition parallel_invoke (steps : RunnableParallel) (input : pyval) : pydict :=
  map (fun step => (fst step, snd step input)) steps.

(** [ChatOpenAI(model=..., temperature=..., openai_api_key=...)] *)
Record ChatOpenAI : Type := mk_ChatOpenAI {
  model : string;
  temperature : Q;
  openai_api_key : string
}.

End LangChain.

Import LangChain.

(* ================================================================== *)
(** ** [llm_utils.py]: [SmartSummarizer] *)
(* ================================================================== *)

Definition nl : string := String "010"%char EmptyString.
Definition indent12 : string := "            ".
Definition indent13 : string := "             ".

Definition system_template : template :=
  [ Lit ("You are an expert content summarizer. " ++ nl
         ++ indent13
         ++ "Create concise, accurate summaries that preserve key information."
         ++ nl
         ++ indent13 ++ "Adapt your style based on the content type." ++ nl
         ++ indent13 ++ "Always maintain factual accuracy and clarity.") ].

Definition user_template : template :=
  [ Lit "Content Type: "; Field "content_type";
    Lit (nl ++ indent12 ++ nl
         ++ indent12 ++ "Content to summarize:" ++ nl
         ++ indent12); Field "content";
    Lit (nl ++ indent12 ++ nl
         ++ indent12 ++ "Requirements:" ++ nl
         ++ indent12 ++ "- Target length: "); Field "summary_length";
    Lit (" words" ++ nl
         ++ indent12 ++ "- Writing style: "); Field "style";
    Lit (nl ++ indent12 ++ "- Focus areas: "); Field "focus_points";
    Lit (nl ++ indent12 ++ nl
         ++ indent12
         ++ "Generate a summary that meets these exact requirements.") ].

Record SmartSummarizer : Type := mk_SmartSummarizer {
  llm : ChatOpenAI;
  prompt : ChatPromptTemplate;
  chain_inputs : RunnableParallel
}.

Definition default_model : string := "gpt-3.5-turbo".

(** The literal [0.3]. *)
Definition default_temperature : Q := 3 # 10.

(** The body of [SmartSummarizer.__init__] once the key is known: the
    client, the two-message prompt and the chain's input mapping. *)
Definition build (api_key model : string) (temperature : Q) : SmartSummarizer :=
  {| llm := mk_ChatOpenAI model temperature api_key;
     prompt := [ (system, system_template); (user, user_template) ];
     chain_inputs :=
       [ ("content", RunnablePassthrough);
         ("content_type", RunnablePassthrough);
         ("summary_length", RunnablePassthrough);
         ("style", RunnablePassthrough);
         ("focus_points", RunnablePassthrough) ] |}.

(** [SmartSummarizer.__init__]; [env_key] is [os.getenv] of the key's
    variable.  A missing or empty key raises [ValueError] with the text on
    the left. *)
Definition SmartSummarizer_init (env_key : option string)
    (model : string) (temperature : Q) : string + SmartSummarizer :=
  match env_key with
  | None => inl "OPENAI_API_KEY not found in environment variables"
  | Some api_key =>
      if negb (PyStr.truthy api_key)
      then inl "OPENAI_API_KEY not found in environment variables"
      else inr (build api_key model temperature)
  end.

Definition short_content_error : string :=
  "Error: Content too short to summarize effectively (min 50 characters)".

(** The dictionary [summarize] passes to [self.chain.invoke]. *)
Definition chain_input (a : summarize_args) : pyval :=
  PDict [ ("content", PStr (arg_content a));
          ("content_type", of_opt_str (arg_content_type a));
          ("summary_length", of_opt_int (arg_summary_length a));
          ("style", of_opt_str (arg_style a));
          ("focus_points", of_opt_str (arg_focus_points a)) ].

Section Summarizer.

(** The model backend. *)
Variable backend : llm_call -> outcome.

(** [self.chain.invoke(input)], the chain being
    [inputs | self.prompt | self.llm | StrOutputParser()]. *)
Definition chain_invoke (self : SmartSummarizer) (input : pyval) : M string :=
  let kwargs := parallel_invoke (chain_inputs self) input in
  match format_messages (prompt self) kwargs with
  | inl e => raise e
  | inr messages =>
      let call := mk_llm_call (model (llm self)) (temperature (llm self))
                              messages in
      emit (CallBackend call) ;;;
      match backend call with
      | Completion text => ret text
      | Raises text => raise (BackendException text)
      end
  end.

(** [SmartSummarizer.summarize] *)
Definition summarize (self : SmartSummarizer) (a : summarize_args) : M string :=
  emit (CallSummarize a) ;;;
  if negb (PyStr.truthy (arg_content a))
     || (PyStr.len (PyStr.strip (arg_content a)) <? 50)
  then ret short_content_error
  else
    try_except
      (summary <- chain_invoke self (chain_input a) ;;
       ret (PyStr.strip summary))
      (fun e => ret ("Error generating summary: " ++ exn_str e)).

End Summarizer.

(* ================================================================== *)
(** ** [app.py]: the request model *)
(* ================================================================== *)

(** A field of the request body: absent, JSON [null], or a value. *)
Inductive supplied (A : Type) : Type :=
| Absent
| Null
| Given (a : A).

Arguments Absent {A}.
Arguments Null {A}.
Arguments Given {A} a.

Record request_body : Type := mk_body {
  body_content : supplied string;
  body_content_type : supplied string;
  body_summary_length : supplied Z;
  body_style : supplied string;
  body_focus_points : supplied string
}.

(** Why a field is refused: the declared constraint it breaks, the
    [ValueError] a validator of the model raised, or, for a string field, a
    value that is not a string ([StringType]). *)
Inductive violation : Type :=
| FieldRequired
| NoneNotAllowed
| MinLength (limit : Z)
| MaxLength (limit : Z)
| NotGe (limit : Z)
| NotLe (limit : Z)
| ValueError (text : string)
| StringType.

(** One entry of a [ValidationError]: the field and the violation. *)
Definition field_error : Type := (string * violation)%type.

(** The validated model. *)
Record SummaryRequest : Type := mk_request {
  content : string;
  content_type : option string;
  summary_length : option Z;
  style : option string;
  focus_points : option string
}.

(** [v in allowed] for a value that may be [None]. *)
Definition py_in (v : option string) (allowed : list string) : bool :=
  match v with
  | None => false
  | Some s => existsb (String.eqb s) allowed
  end.

Definition allowed_content_types : list string :=
  ["general"; "article"; "email"; "report"; "technical"; "research"].

Definition allowed_styles : list string :=
  ["professional"; "casual"; "technical"; "academic"].

(** [SummaryRequest.validate_content_type] *)
Definition validate_content_type (v : option string) : violation + option string :=
  let allowed := allowed_content_types in
  if negb (py_in v allowed)
  then inl (ValueError ("content_type must be one of: "
                        ++ PyStr.join ", " allowed))
  else inr v.

(** [SummaryRequest.validate_style] *)
Definition validate_style (v : option string) : violation + option string :=
  let allowed := allowed_styles in
  if negb (py_in v allowed)
  then inl (ValueError ("style must be one of: " ++ PyStr.join ", " allowed))
  else inr v.

(** [content: str = Field(..., min_length=50, max_length=50000)]: required,
    not nullable, the length of the string as supplied is checked. *)
Definition check_content (v : supplied string) : violation + string :=
  match v with
  | Absent => inl FieldRequired
  | Null => inl NoneNotAllowed
  | Given s =>
      if PyStr.len s <? 50 then inl (MinLength 50)
      else if PyStr.len s >? 50000 then inl (MaxLength 50000)
      else inr s
  end.

(** An [Optional[str]] field with a default and a validator: the default is
    taken as it is when the field is absent (the validator is not declared
    [always]); a supplied value, [None] included, goes through the
    validator. *)
Definition check_tag (default : string)
    (validator : option string -> violation + option string)
    (v : supplied string) : violation + option string :=
  match v with
  | Absent => inr (Some default)
  | Null => validator None
  | Given s => validator (Some s)
  end.

(** [summary_length: Optional[int] = Field(100, ge=20, le=500)]: the bounds
    constrain an [int]; [None] is admitted by [Optional]. *)
Definition check_summary_length (v : supplied Z) : violation + option Z :=
  match v with
  | Absent => inr (Some 100)
  | Null => inr None
  | Given z =>
      if z <? 20 then inl (NotGe 20)
      else if z >? 500 then inl (NotLe 500)
      else inr (Some z)
  end.

(** [focus_points: Optional[str] = Field("main ideas")] *)
Definition check_focus_points (v : supplied string) : violation + option string :=
  match v with
  | Absent => inr (Some "main ideas")
  | Null => inr None
  | Given s => inr (Some s)
  end.

Definition errors_at {A} (loc : string) (r : violation + A) : list field_error :=
  match r with
  | inl why => [(loc, why)]
  | inr _ => []
  end.

(** Building a [SummaryRequest] from a request body: every field is checked,
    in declaration order, and the errors of all fields are collected. *)
Definition validate (b : request_body) : list field_error + SummaryRequest :=
  let c := check_content (body_content b) in
  let ct := check_tag "general" validate_content_type (body_content_type b) in
  let sl := check_summary_length (body_summary_length b) in
  let st := check_tag "professional" validate_style (body_style b) in
  let fp := check_focus_points (body_focus_points b) in
  match c, ct, sl, st, fp with
  | inr c', inr ct', inr sl', inr st', inr fp' =>
      inr (mk_request c' ct' sl' st' fp')
  | _, _, _, _, _ =>
      inl (errors_at "content" c ++ errors_at "content_type" ct
           ++ errors_at "summary_length" sl ++ errors_at "style" st
           ++ errors_at "focus_points" fp)%list
  end.

(** *** Request bodies as JSON *)

(** A JSON value, as the endpoint receives it (numbers with a fraction
    apart). *)
#[warnings="-register-all"] Inductive json : Type :=
| JNull
| JBool (b : bool)
| JInt (z : Z)
| JString (s : string)
| JArray (items : list json)
| JObject (members : list (string * json)).

(** A request body whose string fields hold any JSON value; [None] is an
    absent field. *)
Record json_body : Type := mk_json_body {
  json_content : option json;
  json_content_type : option json;
  json_summary_length : supplied Z;
  json_style : option json;
  json_focus_points : option json
}.

(** The type check of a [str] or [Optional[str]] field: only a JSON string
    is a string.  It comes before the constraints and the validators of the
    field, which are not run on a value of another type. *)
Definition as_string (v : option json) : violation + supplied string :=
  match v with
  | None => inr Absent
  | Some JNull => inr Null
  | Some (JString s) => inr (Given s)
  | Some _ => inl StringType
  end.

Definition on_string {A} (check : supplied string -> violation + A)
    (v : option json) : violation + A :=
  match as_string v with
  | inl why => inl why
  | inr s => check s
  end.

(** Building a [SummaryRequest] from a JSON body: as [validate], after the
    type check of each string field. *)
Definition validate_json (b : json_body) : list field_error + SummaryRequest :=
  let c := on_string check_content (json_content b) in
  let ct := on_string (check_tag "general" validate_content_type)
                      (json_content_type b) in
  let sl := check_summary_length (json_summary_length b) in
  let st := on_string (check_tag "professional" validate_style)
                      (json_style b) in
  let fp := on_string check_focus_points (json_focus_points b) in
  match c, ct, sl, st, fp with
  | inr c', inr ct', inr sl', inr st', inr fp' =>
      inr (mk_request c' ct' sl' st' fp')
  | _, _, _, _, _ =>
      inl (errors_at "content" c ++ errors_at "content_type" ct
           ++ errors_at "summary_length" sl ++ errors_at "style" st
           ++ errors_at "focus_points" fp)%list
  end.

(** A typed field as JSON. *)
Definition string_field (v : supplied string) : option json :=
  match v with
  | Absent => None
  | Null => Some JNull
  | Given s => Some (JString s)
  end.

Definition to_json (b : request_body) : json_body :=
  mk_json_body (string_field (body_content b))
               (string_field (body_content_type b))
               (body_summary_length b)
               (string_field (body_style b))
               (string_field (body_focus_points b)).

Definition plural (limit : Z) : string :=
  if limit =? 1 then EmptyString else "s".

(** The message of an error, as the model words it. *)
Definition violation_msg (why : violation) : string :=
  match why with
  | FieldRequired => "Field required"
  | NoneNotAllowed => "Input should be a valid string"
  | MinLength limit =>
      "String should have at least " ++ PyStr.str_int limit ++ " character"
      ++ plural limit
  | MaxLength limit =>
      "String should have at most " ++ PyStr.str_int limit ++ " character"
      ++ plural limit
  | NotGe limit =>
      "Input should be greater than or equal to " ++ PyStr.str_int limit
  | NotLe limit =>
      "Input should be less than or equal to " ++ PyStr.str_int limit
  | ValueError text => "Value error, " ++ text
  | StringType => "Input should be a valid string"
  end.

Record SummaryResponse : Type := mk_response {
  summary : string;
  word_count : Z;
  char_count : Z;
  parameters_used : pydict
}.

(* ================================================================== *)
(** ** [app.py]: the [/summarize] endpoint *)
(* ================================================================== *)

(** What the client of [POST /summarize] receives. [Unhandled] stands for an
    exception other than [HTTPException] leaving the handler. *)
Inductive http_response : Type :=
| Response200 (body : SummaryResponse)
| Response422 (errors : list field_error)
| ResponseError (status_code : Z) (detail : string)
| Unhandled (e : exn).

Section App.

Variable backend : llm_call -> outcome.

(** The configured API key. *)
Variable api_key : string.

(** [summarizer = SmartSummarizer()], with the defaults of [__init__]. *)
Definition summarizer : SmartSummarizer :=
  build api_key default_model default_temperature.

Definition request_args (request : SummaryRequest) : summarize_args :=
  mk_args (content request) (content_type request) (summary_length request)
          (style request) (focus_points request).

(** [create_summary] *)
Definition create_summary (request : SummaryRequest) : M SummaryResponse :=
  try_except
    (summary <- summarize backend summarizer (request_args request) ;;
     (if PyStr.startswith summary "Error"
      then raise (HTTPException 500 summary)
      else ret tt) ;;;
     ret {| summary := summary;
            word_count := Z.of_nat (List.length (PyStr.split summary));
            char_count := PyStr.len summary;
            parameters_used :=
              [ ("content_type", of_opt_str (content_type request));
                ("summary_length", of_opt_int (summary_length request));
                ("style", of_opt_str (style request));
                ("focus_points", of_opt_str (focus_points request)) ] |})
    (fun e =>
       raise (HTTPException 500 ("Internal server error: " ++ exn_str e))).

(** [POST /summarize]: the body is validated into a [SummaryRequest]; a
    body that fails validation is answered with 422 and the handler is not
    run; an [HTTPException] raised by the handler becomes the response. *)
Definition post_summarize (b : request_body) : http_response * list event :=
  match validate b with
  | inl errors => (Response422 errors, [])
  | inr request =>
      match create_summary request with
      | (inr body, t) => (Response200 body, t)
      | (inl (HTTPException status_code detail), t) =>
          (ResponseError status_code detail, t)
      | (inl e, t) => (Unhandled e, t)
      end
  end.

End App.

(** [POST /summarize] on a JSON body. *)
Definition post_summarize_json (backend : llm_call -> outcome)
    (api_key : string) (b : json_body) : http_response * list event :=
  match validate_json b with
  | inl errors => (Response422 errors, [])
  | inr request =>
      match create_summary backend api_key request with
      | (inr body, t) => (Response200 body, t)
      | (inl (HTTPException status_code detail), t) =>
          (ResponseError status_code detail, t)
      | (inl e, t) => (Unhandled e, t)
      end
  end.

(* ================================================================== *)
(** ** The specification's wording of the word count *)
(* ================================================================== *)

(** The pieces of [s] between consecutive whitespace characters, empty
    pieces included; [tok] is the piece being scanned. *)
Fixpoint delimited_from (tok s : string) : list string :=
  match s with
  | EmptyString => [tok]
  | String c s' =>
      if PyStr.isspace c
      then tok :: delimited_from EmptyString s'
      else delimited_from (tok ++ String c EmptyString) s'
  end.

(** "The number of whitespace-delimited non-empty tokens". *)
Definition spec_word_count (s : string) : Z :=
  Z.of_nat (List.length (filter PyStr.truthy (delimited_from EmptyString s))).

(** The user instruction as the specification words it: every field of the
    template holds the text of its own parameter. *)
Definition spec_user_instruction (a : summarize_args) : string :=
  "Content Type: " ++ str (of_opt_str (arg_content_type a))
  ++ nl ++ indent12 ++ nl
  ++ indent12 ++ "Content to summarize:" ++ nl
  ++ indent12 ++ arg_content a
  ++ nl ++ indent12 ++ nl
  ++ indent12 ++ "Requirements:" ++ nl
  ++ indent12 ++ "- Target length: " ++ str (of_opt_int (arg_summary_length a))
  ++ " words" ++ nl
  ++ indent12 ++ "- Writing style: " ++ str (of_opt_str (arg_style a))
  ++ nl ++ indent12 ++ "- Focus areas: " ++ str (of_opt_str (arg_focus_points a))
  ++ nl ++ indent12 ++ nl
  ++ indent12 ++ "Generate a summary that meets these exact requirements.".

(* ================================================================== *)
(** ** Closed forms and scenario data used by the statements *)
(* ================================================================== *)

(** The messages the chain of [self] renders for the arguments [a]. *)
Definition rendered_messages (self : SmartSummarizer) (a : summarize_args)
  : exn + list message :=
  format_messages (prompt self)
                  (parallel_invoke (chain_inputs self) (chain_input a)).

Definition system_text : string :=
  "You are an expert content summarizer. " ++ nl
  ++ indent13
  ++ "Create concise, accurate summaries that preserve key information."
  ++ nl
  ++ indent13 ++ "Adapt your style based on the content type." ++ nl
  ++ indent13 ++ "Always maintain factual accuracy and clarity.".

(** Closed form of the rendered user message: each of the five fields
    holds [str()] of the whole input dictionary. *)
Definition user_text (a : summarize_args) : string :=
  let d := str (chain_input a) in
  "Content Type: " ++ d
  ++ (nl ++ indent12 ++ nl
      ++ indent12 ++ "Content to summarize:" ++ nl
      ++ indent12) ++ d
  ++ (nl ++ indent12 ++ nl
      ++ indent12 ++ "Requirements:" ++ nl
      ++ indent12 ++ "- Target length: ") ++ d
  ++ (" words" ++ nl
      ++ indent12 ++ "- Writing style: ") ++ d
  ++ (nl ++ indent12 ++ "- Focus areas: ") ++ d
  ++ (nl ++ indent12 ++ nl
      ++ indent12
      ++ "Generate a summary that meets these exact requirements.").

Definition submitted_call (model : string) (temperature : Q)
    (a : summarize_args) : llm_call :=
  mk_llm_call model temperature [(system, system_text); (user, user_text a)].

(** The detail of the response when the handler's own [HTTPException],
    raised for the summarizer text [s], is caught and wrapped. *)
Definition wrapped_detail (s : string) : string :=
  "Internal server error: " ++ exn_str (HTTPException 500 s).

Definition echo_parameters (request : SummaryRequest) : pydict :=
  [ ("content_type", of_opt_str (content_type request));
    ("summary_length", of_opt_int (summary_length request));
    ("style", of_opt_str (style request));
    ("focus_points", of_opt_str (focus_points request)) ].

(** The call the application's summarizer submits for a request. *)
Definition request_call (request : SummaryRequest) : llm_call :=
  submitted_call default_model default_temperature (request_args request).

(** The errors of all fields, in declaration order. *)
Definition field_errors (b : request_body) : list field_error :=
  (errors_at "content" (check_content (body_content b))
   ++ errors_at "content_type"
        (check_tag "general" validate_content_type (body_content_type b))
   ++ errors_at "summary_length" (check_summary_length (body_summary_length b))
   ++ errors_at "style" (check_tag "professional" validate_style (body_style b))
   ++ errors_at "focus_points" (check_focus_points (body_focus_points b)))%list.

(** The errors of all fields of a JSON body, in declaration order. *)
Definition json_field_errors (b : json_body) : list field_error :=
  (errors_at "content" (on_string check_content (json_content b))
   ++ errors_at "content_type"
        (on_string (check_tag "general" validate_content_type)
                   (json_content_type b))
   ++ errors_at "summary_length"
        (check_summary_length (json_summary_length b))
   ++ errors_at "style"
        (on_string (check_tag "professional" validate_style) (json_style b))
   ++ errors_at "focus_points"
        (on_string check_focus_points (json_focus_points b)))%list.

(** A JSON value that is neither [null] nor a string. *)
Definition not_a_string (j : json) : bool :=
  match j with
  | JNull | JString _ => false
  | _ => true
  end.

Definition letters (c : ascii) (n : nat) : string :=
  string_of_list_ascii (repeat c n).

(** The body posted by [test_summarize_endpoint]. *)
Definition scenario_content : string := letters "A"%char 100.

Definition scenario_body : request_body :=
  mk_body (Given scenario_content) (Given "general") (Given 50)
          (Given "professional") (Given "main ideas").

Definition scenario_request : SummaryRequest :=
  mk_request scenario_content (Some "general") (Some 50)
             (Some "professional") (Some "main ideas").

(** A content of two lines. *)
Definition two_line_content : string :=
  "First line of the quarterly report." ++ nl
  ++ "Second line of the quarterly report.".

(** A body with only [content], every other field absent. *)
Definition content_only (c : string) : request_body :=
  mk_body (Given c) Absent Absent Absent Absent.

(** Backend stubs: one that completes with a fixed text, one that raises. *)
Definition completes_with (text : string) : llm_call -> outcome :=
  fun _ => Completion text.

Definition raises_with (text : string) : llm_call -> outcome :=
  fun _ => Raises text.

(* ================================================================== *)
(** ** [app.py]: start-up and the health endpoint *)
(* ================================================================== *)

(** What running the module [app.py] comes to: the application serves with
    its summarizer, or the process prints and exits. *)
Inductive startup_result : Type :=
| Running (s : SmartSummarizer)
| Exited (code : Z) (printed : list string).

(** The module-level [try: summarizer = SmartSummarizer()  except ValueError];
    [env_key] is the value of the key's environment variable. *)
Definition startup (env_key : option string) : startup_result :=
  match SmartSummarizer_init env_key default_model default_temperature with
  | inr s => Running s
  | inl e =>
      Exited 1 [ "Failed to initialize summarizer: " ++ e;
                 "Please ensure OPENAI_API_KEY is set in .env file" ]
  end.

Module Health.

Record HealthResponse : Type := mk_health {
  status : string;
  message : string
}.

(** [root], the handler of [GET /]. *)
Definition root : M HealthResponse :=
  ret {| status := "healthy";
         message :=
           "Smart Summarizer API is running. Visit /docs for documentation." |}.

End Health.

(* ================================================================== *)
(** ** Predicates used by the further properties *)
(* ================================================================== *)

(** Every character of [s] is whitespace. *)
Fixpoint all_space (s : string) : bool :=
  match s with
  | EmptyString => true
  | String c s' => PyStr.isspace c && all_space s'
  end.

(** A character [repr] shows as itself between single quotes: printable
    ASCII other than the single quote and the backslash. *)
Definition plain_char (c : ascii) : bool :=
  let n := N_of_ascii c in
  ((32 <=? n) && (n <? 127) && negb (n =? 39) && negb (n =? 92))%N.

Fixpoint plain (s : string) : bool :=
  match s with
  | EmptyString => true
  | String c s' => plain_char c && plain s'
  end.

(** The text the summarizer returns for a request that reaches the
    backend. *)
Definition summarizer_text (backend : llm_call -> outcome)
    (request : SummaryRequest) : string :=
  match backend (request_call request) with
  | Completion text => PyStr.strip text
  | Raises text => "Error generating summary: " ++ text
  end.

Definition backend_calls (tr : list event) : nat :=
  List.length (filter is_backend_call tr).

Definition summarize_calls (tr : list event) : nat :=
  List.length (filter is_summarize_call tr).

(** The calls of a trace that went to the backend. *)
Fixpoint calls_of (tr : list event) : list llm_call :=
  match tr with
  | [] => []
  | CallBackend call :: tr' => call :: calls_of tr'
  | CallSummarize _ :: tr' => calls_of tr'
  end.

(* ================================================================== *)
(** ** Lemmas on strings *)
(* ================================================================== *)

Example strip_ex :
  PyStr.strip "  a b  " = "a b" /\ PyStr.split "  a  b c " = ["a"; "b"; "c"].
Proof. split; reflexivity. Qed.

Example repr_ex :
  PyStr.repr_str "it's" = String PyStr.dquote ("it's" ++ String PyStr.dquote EmptyString)
  /\ PyStr.str_int 100 = "100" /\ PyStr.str_int (-5) = "-5".
Proof. repeat split; reflexivity. Qed.

Lemma append_empty_r (s : string) : s ++ EmptyString = s.
Proof. induction s as [|c s IH]; simpl; [reflexivity | now rewrite IH]. Qed.

Lemma append_assoc (a b c : string) : (a ++ b) ++ c = a ++ (b ++ c).
Proof. induction a as [|x a IH]; simpl; [reflexivity | now rewrite IH]. Qed.

Lemma length_append (a b : string) :
  String.length (a ++ b) = (String.length a + String.length b)%nat.
Proof. induction a as [|x a IH]; simpl; [reflexivity | now rewrite IH]. Qed.

Lemma lstrip_length (s : string) :
  (String.length (PyStr.lstrip s) <= String.length s)%nat.
Proof.
  induction s as [|c s IH]; simpl; [lia|].
  destruct (PyStr.isspace c); simpl; lia.
Qed.

Lemma rstrip_length (s : string) :
  (String.length (PyStr.rstrip s) <= String.length s)%nat.
Proof.
  induction s as [|c s IH]; simpl; [lia|].
  destruct (PyStr.rstrip s) as [|d r]; simpl in *.
  - destruct (PyStr.isspace c); simpl; lia.
  - lia.
Qed.

Lemma strip_len_le (s : string) : PyStr.len (PyStr.strip s) <= PyStr.len s.
Proof.
  unfold PyStr.len, PyStr.strip.
  pose proof (rstrip_length (PyStr.lstrip s)).
  pose proof (lstrip_length s). lia.
Qed.

Lemma prefix_append (n b : string) : String.prefix n (n ++ b) = true.
Proof.
  induction n as [|c n IH]; simpl.
  - now destruct b.
  - destruct (ascii_dec c c) as [_|ne]; [exact IH | now elim ne].
Qed.

Lemma contains_unfold (n h : string) :
  PyStr.contains n h
  = String.prefix n h
    || match h with
       | EmptyString => false
       | String _ h' => PyStr.contains n h'
       end.
Proof. destruct h; reflexivity. Qed.

Lemma contains_here (n b : string) : PyStr.contains n (n ++ b) = true.
Proof. rewrite contains_unfold, prefix_append. reflexivity. Qed.

Lemma contains_append_r (n a b : string) :
  PyStr.contains n b = true -> PyStr.contains n (a ++ b) = true.
Proof.
  intros H. induction a as [|c a IH]; [exact H|].
  change (String c a ++ b) with (String c (a ++ b)).
  rewrite contains_unfold, IH. apply orb_true_r.
Qed.

Lemma contains_refl (n : string) : PyStr.contains n n = true.
Proof. rewrite <- (append_empty_r n) at 2. apply contains_here. Qed.

Lemma append_nonempty_neq (a s : string) : PyStr.truthy a = true -> a ++ s <> s.
Proof.
  intros Ha E. apply (f_equal String.length) in E.
  rewrite length_append in E. destruct a; [discriminate | simpl in E; lia].
Qed.

Lemma prefix_append_l (n a b : string) :
  String.prefix n a = true -> String.prefix n (a ++ b) = true.
Proof.
  revert a. induction n as [|c n IH]; intros a H.
  - now destruct (a ++ b).
  - destruct a as [|d a]; simpl in *; [discriminate|].
    destruct (ascii_dec c d); [now apply IH | discriminate].
Qed.

Lemma contains_append_l (n a b : string) :
  PyStr.contains n a = true -> PyStr.contains n (a ++ b) = true.
Proof.
  induction a as [|c a IH]; intros H.
  - rewrite contains_unfold in H. rewrite orb_false_r in H.
    destruct n; [|discriminate].
    rewrite contains_unfold. now destruct (EmptyString ++ b).
  - rewrite contains_unfold in H. apply orb_true_iff in H.
    change (String c a ++ b) with (String c (a ++ b)).
    rewrite contains_unfold. apply orb_true_iff.
    destruct H as [H | H].
    + left. change (String c (a ++ b)) with (String c a ++ b).
      now apply prefix_append_l.
    + right. now apply IH.
Qed.

Lemma contains_middle (n a b : string) : PyStr.contains n (a ++ n ++ b) = true.
Proof. apply contains_append_r, contains_here. Qed.

(** Python's [split()] yields exactly the non-empty whitespace-delimited
    pieces. *)
Lemma split_from_delimited (s tok : string) :
  PyStr.split_from tok s = filter PyStr.truthy (delimited_from tok s).
Proof.
  revert tok. induction s as [|c s IH]; intros tok; simpl.
  - destruct (PyStr.truthy tok); reflexivity.
  - destruct (PyStr.isspace c); simpl.
    + rewrite IH. destruct (PyStr.truthy tok); reflexivity.
    + apply IH.
Qed.

Lemma split_word_count (s : string) :
  Z.of_nat (List.length (PyStr.split s)) = spec_word_count s.
Proof. unfold PyStr.split, spec_word_count. now rewrite split_from_delimited. Qed.

(* ================================================================== *)
(** ** What the chain submits *)
(* ================================================================== *)

Lemma rendered_messages_build (k m : string) (t : Q) (a : summarize_args) :
  rendered_messages (build k m t) a
  = inr [(system, system_text); (user, user_text a)].
Proof.
  unfold rendered_messages, user_text, system_text. cbn -[str append nl indent12 indent13].
  rewrite !append_empty_r. reflexivity.
Qed.

Section SummarizerFacts.

Variable backend : llm_call -> outcome.
Variables (k m : string) (t : Q).

Lemma chain_invoke_build (a : summarize_args) :
  chain_invoke backend (build k m t) (chain_input a)
  = (match backend (submitted_call m t a) with
     | Completion text => inr text
     | Raises text => inl (BackendException text)
     end, [CallBackend (submitted_call m t a)]).
Proof.
  unfold chain_invoke.
  change (format_messages _ _) with (rendered_messages (build k m t) a).
  rewrite rendered_messages_build. unfold submitted_call.
  cbv beta iota zeta delta [bind emit ret raise model temperature llm build].
  destruct (backend _); reflexivity.
Qed.

Lemma short_guard (c : string) :
  negb (PyStr.truthy c) || (PyStr.len (PyStr.strip c) <? 50)
  = (PyStr.len (PyStr.strip c) <? 50).
Proof. destruct c; reflexivity. Qed.

Lemma summarize_short (a : summarize_args) :
  PyStr.len (PyStr.strip (arg_content a)) < 50 ->
  summarize backend (build k m t) a
  = (inr short_content_error, [CallSummarize a]).
Proof.
  intros H. unfold summarize. rewrite short_guard.
  apply Z.ltb_lt in H. rewrite H. reflexivity.
Qed.

Lemma summarize_long (a : summarize_args) :
  50 <= PyStr.len (PyStr.strip (arg_content a)) ->
  summarize backend (build k m t) a
  = (inr (match backend (submitted_call m t a) with
          | Completion text => PyStr.strip text
          | Raises text => "Error generating summary: " ++ text
          end),
     [CallSummarize a; CallBackend (submitted_call m t a)]).
Proof.
  intros H. unfold summarize. rewrite short_guard.
  apply Z.ltb_ge in H. rewrite H. rewrite chain_invoke_build.
  destruct (backend (submitted_call m t a)); reflexivity.
Qed.

End SummarizerFacts.

(* ================================================================== *)
(** ** The handler, case by case *)
(* ================================================================== *)

Section AppFacts.

Variable backend : llm_call -> outcome.
Variable api_key : string.

Lemma create_summary_of_summarize (request : SummaryRequest)
    (s : string) (tr : list event) :
  summarize backend (summarizer api_key) (request_args request) = (inr s, tr) ->
  create_summary backend api_key request
  = (if PyStr.startswith s "Error"
     then inl (HTTPException 500 (wrapped_detail s))
     else inr (mk_response s (Z.of_nat (List.length (PyStr.split s)))
                           (PyStr.len s) (echo_parameters request)),
     tr).
Proof.
  intros H. unfold create_summary. rewrite H.
  unfold bind, try_except, raise, ret, wrapped_detail, echo_parameters.
  destruct (PyStr.startswith s "Error");
    cbv beta iota zeta; rewrite ?app_nil_r; reflexivity.
Qed.

Lemma create_summary_short (request : SummaryRequest) :
  PyStr.len (PyStr.strip (content request)) < 50 ->
  create_summary backend api_key request
  = (inl (HTTPException 500 (wrapped_detail short_content_error)),
     [CallSummarize (request_args request)]).
Proof.
  intros H.
  rewrite (create_summary_of_summarize request short_content_error
             [CallSummarize (request_args request)]).
  - reflexivity.
  - apply summarize_short. exact H.
Qed.

Lemma create_summary_long (request : SummaryRequest) :
  50 <= PyStr.len (PyStr.strip (content request)) ->
  create_summary backend api_key request
  = (let s := match backend (request_call request) with
              | Completion text => PyStr.strip text
              | Raises text => "Error generating summary: " ++ text
              end in
     if PyStr.startswith s "Error"
     then inl (HTTPException 500 (wrapped_detail s))
     else inr (mk_response s (Z.of_nat (List.length (PyStr.split s)))
                           (PyStr.len s) (echo_parameters request)),
     [CallSummarize (request_args request);
      CallBackend (request_call request)]).
Proof.
  intros H. apply create_summary_of_summarize.
  apply summarize_long. exact H.
Qed.

(** [summarize] never raises: it returns a text. *)
Lemma summarize_total (a : summarize_args) :
  exists s tr, summarize backend (summarizer api_key) a = (inr s, tr).
Proof.
  destruct (Z.lt_ge_cases (PyStr.len (PyStr.strip (arg_content a))) 50)
    as [Hs | Hl].
  - eexists; eexists. apply summarize_short. exact Hs.
  - eexists; eexists. apply summarize_long. exact Hl.
Qed.

(** Whatever the handler raises is its own [HTTPException], wrapping the
    one it raised for an "Error"-prefixed text of the summarizer. *)
Lemma create_summary_raises (request : SummaryRequest) (e : exn)
    (tr : list event) :
  create_summary backend api_key request = (inl e, tr) ->
  exists s,
    result_of (summarize backend (summarizer api_key) (request_args request))
    = inr s
    /\ PyStr.startswith s "Error" = true
    /\ e = HTTPException 500 (wrapped_detail s).
Proof.
  intros H.
  destruct (summarize_total (request_args request)) as [s [tr' Hs]].
  rewrite (create_summary_of_summarize request s tr' Hs) in H.
  destruct (PyStr.startswith s "Error") eqn:E; [|discriminate].
  injection H as He _. exists s. rewrite Hs. now repeat split.
Qed.

(** No exception other than [HTTPException] leaves the handler. *)
Lemma post_summarize_handled (b : request_body) (e : exn) (tr : list event) :
  post_summarize backend api_key b <> (Unhandled e, tr).
Proof.
  unfold post_summarize. destruct (validate b) as [errs | request];
    [discriminate|].
  destruct (create_summary backend api_key request) as [[e' | body] tr'] eqn:E;
    [|discriminate].
  apply create_summary_raises in E. destruct E as [s [_ [_ ->]]].
  discriminate.
Qed.

End AppFacts.

Lemma scenario_valid : validate scenario_body = inr scenario_request.
Proof. reflexivity. Qed.

(* ================================================================== *)
(** ** Properties of the summarization service *)
(* ================================================================== *)

(** C3.  Called directly, with any arguments whose content has fewer than 50
    characters once trimmed (the empty content included), [summarize]
    returns its "Error: Content too short" text, and the only event of the
    call is the call itself: the model backend is not called. *)
Theorem summarize_short_circuits
    (backend : llm_call -> outcome) (k m : string) (t : Q)
    (a : summarize_args) :
  PyStr.len (PyStr.strip (arg_content a)) < 50 ->
  summarize backend (build k m t) a
  = (inr short_content_error, [CallSummarize a])
  /\ existsb is_backend_call (trace_of (summarize backend (build k m t) a))
     = false
  /\ PyStr.startswith short_content_error "Error" = true.
Proof.
  intros H. rewrite (summarize_short backend k m t a H). now repeat split.
Qed.

Lemma summarize_short_circuits_witness :
  let empty := mk_args EmptyString (Some "general") (Some 100)
                       (Some "professional") (Some "main ideas") in
  PyStr.len (PyStr.strip (arg_content empty)) < 50
  /\ result_of (summarize (completes_with "unused") (build "key" default_model
                                                     default_temperature) empty)
     = inr short_content_error.
Proof.
  intros empty. split; [reflexivity|].
  destruct (summarize_short_circuits (completes_with "unused") "key"
              default_model default_temperature empty) as [E _];
    [reflexivity|].
  rewrite E. reflexivity.
Defined.

(** C2.  When the backend call made for a request raises, whatever the text
    of the exception, the handler raises its [HTTPException] with status 500
    and a detail that contains that text; the endpoint answers with that
    server error, neither with a 200 response nor with an unhandled
    exception. *)
Theorem backend_failure_is_server_error
    (backend : llm_call -> outcome) (api_key : string)
    (b : request_body) (request : SummaryRequest) (text : string) :
  validate b = inr request ->
  50 <= PyStr.len (PyStr.strip (content request)) ->
  backend (request_call request) = Raises text ->
  let detail :=
    "Internal server error: 500: Error generating summary: " ++ text in
  create_summary backend api_key request
  = (inl (HTTPException 500 detail),
     [CallSummarize (request_args request);
      CallBackend (request_call request)])
  /\ fst (post_summarize backend api_key b) = ResponseError 500 detail
  /\ PyStr.contains text detail = true.
Proof.
  intros Hv Hl Hb detail.
  assert (E : create_summary backend api_key request
              = (inl (HTTPException 500 detail),
                 [CallSummarize (request_args request);
                  CallBackend (request_call request)])).
  { rewrite (create_summary_long backend api_key request Hl), Hb.
    reflexivity. }
  split; [exact E|]. split.
  - unfold post_summarize. rewrite Hv, E. reflexivity.
  - apply contains_append_r, contains_refl.
Qed.

Lemma backend_failure_is_server_error_witness :
  validate scenario_body = inr scenario_request
  /\ 50 <= PyStr.len (PyStr.strip (content scenario_request))
  /\ raises_with "Connection error." (request_call scenario_request)
     = Raises "Connection error."
  /\ fst (post_summarize (raises_with "Connection error.") "key" scenario_body)
     = ResponseError 500
         "Internal server error: 500: Error generating summary: Connection error.".
Proof.
  assert (Hl : 50 <= PyStr.len (PyStr.strip (content scenario_request)))
    by (vm_compute; discriminate).
  split; [reflexivity|]. split; [exact Hl|]. split; [reflexivity|].
  apply (backend_failure_is_server_error (raises_with "Connection error.")
           "key" scenario_body scenario_request "Connection error.");
    [reflexivity | exact Hl | reflexivity].
Defined.

(** C4.  On the success path the response is a function of the completion
    text alone (the echoed parameters apart): the summary is the completion
    trimmed, the word count is the number of whitespace-delimited non-empty
    tokens of the summary, the character count is its length; two requests,
    served by any two backends that complete with the same text, get the
    same summary, word count and character count. *)
Theorem normalization_is_a_function_of_the_completion
    (backend1 backend2 : llm_call -> outcome) (key1 key2 : string)
    (request1 request2 : SummaryRequest) (text : string) :
  50 <= PyStr.len (PyStr.strip (content request1)) ->
  50 <= PyStr.len (PyStr.strip (content request2)) ->
  backend1 (request_call request1) = Completion text ->
  backend2 (request_call request2) = Completion text ->
  PyStr.startswith (PyStr.strip text) "Error" = false ->
  exists body1 body2,
    result_of (create_summary backend1 key1 request1) = inr body1
    /\ result_of (create_summary backend2 key2 request2) = inr body2
    /\ summary body1 = PyStr.strip text
    /\ word_count body1 = spec_word_count (summary body1)
    /\ char_count body1 = PyStr.len (summary body1)
    /\ summary body2 = summary body1
    /\ word_count body2 = word_count body1
    /\ char_count body2 = char_count body1.
Proof.
  intros Hl1 Hl2 Hb1 Hb2 Hok.
  rewrite (create_summary_long backend1 key1 request1 Hl1), Hb1.
  rewrite (create_summary_long backend2 key2 request2 Hl2), Hb2.
  cbv zeta. rewrite Hok. unfold result_of, fst.
  eexists; eexists. split; [reflexivity|]. split; [reflexivity|].
  cbn [summary word_count char_count].
  repeat split. apply split_word_count.
Qed.

Lemma normalization_is_a_function_of_the_completion_witness :
  let text := "  The report covers  three topics. " in
  let other := mk_request (letters "B"%char 80) None None None None in
  50 <= PyStr.len (PyStr.strip (content scenario_request))
  /\ 50 <= PyStr.len (PyStr.strip (content other))
  /\ PyStr.startswith (PyStr.strip text) "Error" = false
  /\ exists body1 body2,
       result_of (create_summary (completes_with text) "key" scenario_request)
       = inr body1
       /\ result_of (create_summary (completes_with text) "other key" other)
          = inr body2
       /\ summary body1 = "The report covers  three topics."
       /\ word_count body1 = 5 /\ char_count body1 = 32
       /\ word_count body2 = 5 /\ char_count body2 = 32.
Proof.
  intros text other.
  assert (H1 : 50 <= PyStr.len (PyStr.strip (content scenario_request)))
    by (vm_compute; discriminate).
  assert (H2 : 50 <= PyStr.len (PyStr.strip (content other)))
    by (vm_compute; discriminate).
  split; [exact H1|]. split; [exact H2|]. split; [reflexivity|].
  destruct (normalization_is_a_function_of_the_completion
              (completes_with text) (completes_with text) "key" "other key"
              scenario_request other text H1 H2 eq_refl eq_refl eq_refl)
    as [body1 [body2 [E1 [E2 [Es [Ew [Ec [Es2 [Ew2 Ec2]]]]]]]]].
  exists body1, body2.
  rewrite Ew2, Ec2, Ew, Ec, Es.
  repeat split; try assumption; reflexivity.
Defined.

(* ================================================================== *)
(** ** Properties of the handler *)
(* ================================================================== *)

(** C7, as stated, fails: a backend that completes with a summary beginning
    with the word "Error" is answered with a server error. *)
Lemma error_prefixed_summary_counterexample :
  let text := "Error rates fell sharply in the third quarter." in
  validate scenario_body = inr scenario_request
  /\ completes_with text (request_call scenario_request) = Completion text
  /\ PyStr.startswith (PyStr.strip text) "Error" = true
  /\ fst (post_summarize (completes_with text) "key" scenario_body)
     = ResponseError 500
         "Internal server error: 500: Error rates fell sharply in the third quarter.".
Proof. repeat split; reflexivity. Qed.

(** C7, amended.  Success and failure are told apart by the prefix "Error"
    of the text the summarizer returns: when the backend completes, the
    endpoint answers 200, with the trimmed completion as summary, if that
    text does not begin with "Error", and answers with a server error
    (status 500) wrapping the text if it does. *)
Theorem success_decided_by_error_prefix
    (backend : llm_call -> outcome) (api_key : string)
    (b : request_body) (request : SummaryRequest) (text : string) :
  validate b = inr request ->
  50 <= PyStr.len (PyStr.strip (content request)) ->
  backend (request_call request) = Completion text ->
  (PyStr.startswith (PyStr.strip text) "Error" = false ->
   exists body, fst (post_summarize backend api_key b) = Response200 body
                /\ summary body = PyStr.strip text)
  /\ (PyStr.startswith (PyStr.strip text) "Error" = true ->
      fst (post_summarize backend api_key b)
      = ResponseError 500 ("Internal server error: 500: " ++ PyStr.strip text)).
Proof.
  intros Hv Hl Hb. unfold post_summarize. rewrite Hv.
  rewrite (create_summary_long backend api_key request Hl), Hb. cbv zeta.
  split; intros E; rewrite E.
  - eexists. split; reflexivity.
  - reflexivity.
Qed.

Lemma success_decided_by_error_prefix_witness :
  let good := "The quarter closed with lower error rates." in
  let bad := "Error rates fell sharply in the third quarter." in
  validate scenario_body = inr scenario_request
  /\ 50 <= PyStr.len (PyStr.strip (content scenario_request))
  /\ PyStr.startswith (PyStr.strip good) "Error" = false
  /\ PyStr.startswith (PyStr.strip bad) "Error" = true
  /\ (exists body,
        fst (post_summarize (completes_with good) "key" scenario_body)
        = Response200 body /\ summary body = PyStr.strip good)
  /\ fst (post_summarize (completes_with bad) "key" scenario_body)
     = ResponseError 500 ("Internal server error: 500: " ++ PyStr.strip bad).
Proof.
  intros good bad.
  assert (Hl : 50 <= PyStr.len (PyStr.strip (content scenario_request)))
    by (vm_compute; discriminate).
  split; [reflexivity|]. split; [exact Hl|].
  split; [reflexivity|]. split; [reflexivity|]. split.
  - apply (success_decided_by_error_prefix (completes_with good) "key"
             scenario_body scenario_request good eq_refl Hl eq_refl).
    reflexivity.
  - apply (success_decided_by_error_prefix (completes_with bad) "key"
             scenario_body scenario_request bad eq_refl Hl eq_refl).
    reflexivity.
Defined.

(** C8, as stated, fails: the summary of scenario A has 29 characters,
    not 30. *)
Lemma scenario_A_counterexample :
  exists body,
    fst (post_summarize (completes_with "This is a short test summary.")
                        "key" scenario_body) = Response200 body
    /\ summary body = "This is a short test summary."
    /\ char_count body <> 30.
Proof. eexists. split; [reflexivity|]. split; [reflexivity | discriminate]. Qed.

(** C8, amended.  Scenario A: the request with content "A" repeated 100
    times, content type "general", summary length 50, style "professional"
    and focus points "main ideas", with a backend stub that completes with
    "This is a short test summary.", succeeds with that text as summary,
    word count 6 and character count 29. *)
Theorem scenario_A (api_key : string) :
  fst (post_summarize (completes_with "This is a short test summary.")
                      api_key scenario_body)
  = Response200
      {| summary := "This is a short test summary.";
         word_count := 6;
         char_count := 29;
         parameters_used :=
           [ ("content_type", PStr "general"); ("summary_length", PInt 50);
             ("style", PStr "professional");
             ("focus_points", PStr "main ideas") ] |}.
Proof.
  unfold post_summarize. rewrite scenario_valid.
  rewrite create_summary_long by (vm_compute; discriminate).
  reflexivity.
Qed.

(** C10.  Every error response the endpoint gives other than the 422 of
    validation has status 500 and a detail that begins with
    "Internal server error: ": it is the text of the [HTTPException] the
    handler raised for an "Error"-prefixed text [s] of the summarizer, caught
    by the handler's own [except Exception] and wrapped, so the detail is
    never [s] itself. *)
Theorem server_error_detail_is_wrapped
    (backend : llm_call -> outcome) (api_key : string)
    (b : request_body) (status_code : Z) (detail : string)
    (tr : list event) :
  post_summarize backend api_key b = (ResponseError status_code detail, tr) ->
  status_code = 500
  /\ PyStr.startswith detail "Internal server error: " = true
  /\ exists request s,
       validate b = inr request
       /\ result_of (summarize backend (summarizer api_key)
                               (request_args request)) = inr s
       /\ PyStr.startswith s "Error" = true
       /\ detail = "Internal server error: 500: " ++ s
       /\ detail <> s.
Proof.
  unfold post_summarize. destruct (validate b) as [errs | request];
    [discriminate|].
  destruct (create_summary backend api_key request) as [[e | body] tr'] eqn:E;
    [|discriminate].
  destruct (create_summary_raises backend api_key request e tr' E)
    as [s [Hs [Hp ->]]].
  intros H. injection H as <- <- _.
  split; [reflexivity|]. split; [reflexivity|].
  exists request, s. repeat split; try assumption.
  apply (append_nonempty_neq "Internal server error: 500: " s). reflexivity.
Qed.

Lemma server_error_detail_is_wrapped_witness :
  let backend := raises_with "Connection error." in
  let detail :=
    "Internal server error: 500: Error generating summary: Connection error." in
  post_summarize backend "key" scenario_body
  = (ResponseError 500 detail, snd (post_summarize backend "key" scenario_body))
  /\ PyStr.startswith detail "Internal server error: " = true
  /\ detail <> "Error generating summary: Connection error.".
Proof.
  intros backend detail.
  assert (H : post_summarize backend "key" scenario_body
              = (ResponseError 500 detail,
                 snd (post_summarize backend "key" scenario_body)))
    by reflexivity.
  split; [exact H|].
  destruct (server_error_detail_is_wrapped backend "key" scenario_body 500
              detail _ H) as [_ [Hp [request [s [_ [_ [_ [Hd Hn]]]]]]]].
  split; [exact Hp|]. discriminate.
Defined.

(* ================================================================== *)
(** ** Properties of the request model *)
(* ================================================================== *)

Lemma validate_rejects (b : request_body) :
  field_errors b <> [] -> validate b = inl (field_errors b).
Proof.
  unfold validate, field_errors.
  destruct (check_content _), (check_tag "general" _ _),
    (check_summary_length _), (check_tag "professional" _ _),
    (check_focus_points _); simpl; intros H; try reflexivity.
  now elim H.
Qed.

Lemma validate_accepts (b : request_body) (c : string)
    (ct st fp : option string) (sl : option Z) :
  check_content (body_content b) = inr c ->
  check_tag "general" validate_content_type (body_content_type b) = inr ct ->
  check_summary_length (body_summary_length b) = inr sl ->
  check_tag "professional" validate_style (body_style b) = inr st ->
  check_focus_points (body_focus_points b) = inr fp ->
  validate b = inr (mk_request c ct sl st fp).
Proof. unfold validate. intros -> -> -> -> ->. reflexivity. Qed.

(** A rejected body never reaches the handler. *)
Lemma rejected_not_served (backend : llm_call -> outcome) (api_key : string)
    (b : request_body) (errors : list field_error) :
  validate b = inl errors ->
  post_summarize backend api_key b = (Response422 errors, []).
Proof. unfold post_summarize. now intros ->. Qed.

Lemma field_error_rejects (b : request_body) (loc : string) (why : violation) :
  In (loc, why) (field_errors b) ->
  validate b = inl (field_errors b).
Proof.
  intros H. apply validate_rejects. intros E. rewrite E in H. exact H.
Qed.

Lemma not_in_allowed (v : string) (allowed : list string) :
  ~ In v allowed -> py_in (Some v) allowed = false.
Proof.
  intros H. simpl. destruct (existsb (String.eqb v) allowed) eqn:E;
    [|reflexivity].
  apply existsb_exists in E. destruct E as [x [Hx Hv]].
  apply String.eqb_eq in Hv. subst x. contradiction.
Qed.

(** C1, as stated, fails in both directions.  A content of 60 blanks has
    trimmed length 0, yet the model accepts it and the service is called; a
    content of 50000 letters and a trailing blank has trimmed length 50000,
    all other fields are absent, yet the model rejects it. *)
Lemma trimmed_length_gate_counterexample :
  let blank := letters " "%char 60 in
  let padded := letters "A"%char (Z.to_nat 50000) ++ " " in
  (PyStr.len (PyStr.strip blank) < 50
   /\ validate (content_only blank)
      = inr (mk_request blank (Some "general") (Some 100)
                        (Some "professional") (Some "main ideas"))
   /\ existsb is_summarize_call
        (snd (post_summarize (completes_with "unused") "key"
                             (content_only blank))) = true)
  /\ (PyStr.len (PyStr.strip padded) = 50000
      /\ validate (content_only padded) = inl [("content", MaxLength 50000)]).
Proof.
  cbv zeta. split; [|split].
  - repeat split; vm_compute; reflexivity.
  - vm_compute. reflexivity.
  - vm_compute. reflexivity.
Qed.

(** C1, amended.  The length check is made on the content as supplied, not
    trimmed, and gates the service.  A body whose content has fewer than 50
    or more than 50000 characters (so also every content whose trimmed
    length exceeds 50000) is rejected with an error on the field "content",
    the endpoint answers 422 and neither the service nor the backend is
    called.  A body whose content has between 50 and 50000 characters and
    whose other fields are absent is accepted, with the defaults. *)
Theorem content_length_gate
    (backend : llm_call -> outcome) (api_key : string)
    (b : request_body) (c : string) :
  body_content b = Given c ->
  (PyStr.len c < 50 \/ 50000 < PyStr.len c
   \/ 50000 < PyStr.len (PyStr.strip c) ->
   exists errors why,
     validate b = inl errors
     /\ In ("content", why) errors
     /\ (why = MinLength 50 \/ why = MaxLength 50000)
     /\ post_summarize backend api_key b = (Response422 errors, []))
  /\ (50 <= PyStr.len c <= 50000 ->
      validate (content_only c)
      = inr (mk_request c (Some "general") (Some 100)
                        (Some "professional") (Some "main ideas"))).
Proof.
  intros Hc. split.
  - intros Hlen.
    assert (Hraw : PyStr.len c < 50 \/ 50000 < PyStr.len c).
    { pose proof (strip_len_le c). lia. }
    assert (Hwhy : exists why,
               check_content (body_content b) = inl why
               /\ (why = MinLength 50 \/ why = MaxLength 50000)).
    { rewrite Hc. unfold check_content.
      destruct (PyStr.len c <? 50) eqn:E1; [eauto|].
      destruct (PyStr.len c >? 50000) eqn:E2; [eauto|].
      apply Z.ltb_ge in E1. rewrite Z.gtb_ltb in E2. apply Z.ltb_ge in E2.
      lia. }
    destruct Hwhy as [why [Hchk Hwhy]].
    assert (Hin : In ("content", why) (field_errors b)).
    { unfold field_errors. rewrite Hchk. simpl. now left. }
    exists (field_errors b), why.
    pose proof (field_error_rejects b _ _ Hin) as Hrej.
    repeat split; try assumption.
    apply rejected_not_served. exact Hrej.
  - intros [Hlo Hhi]. apply validate_accepts; try reflexivity.
    simpl. apply Z.ltb_ge in Hlo. rewrite Hlo.
    rewrite Z.gtb_ltb. apply Z.ltb_ge in Hhi. rewrite Hhi. reflexivity.
Qed.

Lemma content_length_gate_witness :
  (PyStr.len "Too short" < 50
   /\ post_summarize (completes_with "unused") "key" (content_only "Too short")
      = (Response422 [("content", MinLength 50)], []))
  /\ (50 <= PyStr.len scenario_content <= 50000
      /\ validate (content_only scenario_content)
         = inr (mk_request scenario_content (Some "general") (Some 100)
                           (Some "professional") (Some "main ideas"))).
Proof.
  split.
  - assert (Hs : PyStr.len "Too short" < 50) by reflexivity.
    split; [exact Hs|].
    destruct (content_length_gate (completes_with "unused") "key"
                (content_only "Too short") "Too short" eq_refl) as [Hrej _].
    destruct (Hrej (or_introl Hs)) as [errors [why [Hv [_ [_ Hp]]]]].
    rewrite Hp. f_equal. f_equal.
    assert (E : inl errors = validate (content_only "Too short"))
      by (symmetry; exact Hv).
    injection E as ->. reflexivity.
  - assert (Hr : 50 <= PyStr.len scenario_content <= 50000)
      by (vm_compute; split; discriminate).
    split; [exact Hr|].
    apply (content_length_gate (completes_with "unused") "key"
             (content_only scenario_content) scenario_content eq_refl).
    exact Hr.
Defined.

Lemma not_in_by_eqb (v : string) (allowed : list string) :
  existsb (String.eqb v) allowed = false -> ~ In v allowed.
Proof.
  intros E H. assert (T : existsb (String.eqb v) allowed = true).
  { apply existsb_exists. exists v. split; [exact H | apply String.eqb_refl]. }
  congruence.
Qed.


(* ================================================================== *)
(** ** [None] against an absent field; what the prompt holds *)
(* ================================================================== *)

(** [str()] of the dictionary handed to the chain. *)
Lemma str_chain_input (a : summarize_args) :
  str (chain_input a)
  = "{'content': " ++ PyStr.repr_str (arg_content a)
    ++ ", 'content_type': " ++ repr (of_opt_str (arg_content_type a))
    ++ ", 'summary_length': " ++ repr (of_opt_int (arg_summary_length a))
    ++ ", 'style': " ++ repr (of_opt_str (arg_style a))
    ++ ", 'focus_points': " ++ repr (of_opt_str (arg_focus_points a)) ++ "}".
Proof.
  unfold str, chain_input. cbn [repr].
  change (PyStr.repr_str "content") with "'content'".
  change (PyStr.repr_str "content_type") with "'content_type'".
  change (PyStr.repr_str "summary_length") with "'summary_length'".
  change (PyStr.repr_str "style") with "'style'".
  change (PyStr.repr_str "focus_points") with "'focus_points'".
  rewrite !append_assoc. reflexivity.
Qed.

(** What is in the rendered dictionary is in the user message. *)
Lemma contains_user_text (needle : string) (a : summarize_args) :
  PyStr.contains needle (str (chain_input a)) = true ->
  PyStr.contains needle (user_text a) = true.
Proof.
  intros H. unfold user_text. cbv zeta.
  apply contains_append_r, contains_append_l. exact H.
Qed.

Lemma none_summary_length_rendered (a : summarize_args) :
  arg_summary_length a = None ->
  PyStr.contains "'summary_length': None" (user_text a) = true.
Proof.
  intros H. apply contains_user_text. rewrite str_chain_input, H.
  do 4 apply contains_append_r.
  exact (contains_middle "'summary_length': None" ", " _).
Qed.

Lemma none_focus_points_rendered (a : summarize_args) :
  arg_focus_points a = None ->
  PyStr.contains "'focus_points': None" (user_text a) = true.
Proof.
  intros H. apply contains_user_text. rewrite str_chain_input, H.
  do 8 apply contains_append_r.
  exact (contains_middle "'focus_points': None" ", " "}").
Qed.

(** C9.  [null] is not the same as an absent field.  A body with [null] for
    [content_type], or for [style], is rejected with the [ValueError] of that
    field's validator, whatever the other fields hold.  A body with [null]
    for [summary_length], or for [focus_points], is accepted whenever the
    body without that field is, and the validated model then holds [None]
    where the body without the field holds the default (100, "main ideas");
    absent tags take their defaults ("general", "professional").  The
    handler passes the fields of the model to the service as they are, and
    a [None] shows in the submitted user message as the text "None". *)
Theorem null_is_not_absent
    (backend : llm_call -> outcome) (api_key : string)
    (c ct st fp : supplied string) (sl : supplied Z) :
  (exists errors text,
     validate (mk_body c Null sl st fp) = inl errors
     /\ In ("content_type", ValueError text) errors
     /\ post_summarize backend api_key (mk_body c Null sl st fp)
        = (Response422 errors, []))
  /\ (exists errors text,
        validate (mk_body c ct sl Null fp) = inl errors
        /\ In ("style", ValueError text) errors
        /\ post_summarize backend api_key (mk_body c ct sl Null fp)
           = (Response422 errors, []))
  /\ (forall r, validate (mk_body c ct Absent st fp) = inr r ->
        summary_length r = Some 100
        /\ validate (mk_body c ct Null st fp)
           = inr (mk_request (content r) (content_type r) None
                             (style r) (focus_points r)))
  /\ (forall r, validate (mk_body c ct sl st Absent) = inr r ->
        focus_points r = Some "main ideas"
        /\ validate (mk_body c ct sl st Null)
           = inr (mk_request (content r) (content_type r) (summary_length r)
                             (style r) None))
  /\ (forall r, validate (mk_body c Absent sl Absent fp) = inr r ->
        content_type r = Some "general" /\ style r = Some "professional")
  /\ (forall r, validate (mk_body c ct sl st fp) = inr r ->
        50 <= PyStr.len (PyStr.strip (content r)) ->
        snd (post_summarize backend api_key (mk_body c ct sl st fp))
        = [CallSummarize (request_args r); CallBackend (request_call r)]
        /\ call_messages (request_call r)
           = [(system, system_text); (user, user_text (request_args r))]
        /\ (summary_length r = None ->
            arg_summary_length (request_args r) = None
            /\ PyStr.contains "'summary_length': None"
                 (user_text (request_args r)) = true)
        /\ (focus_points r = None ->
            arg_focus_points (request_args r) = None
            /\ PyStr.contains "'focus_points': None"
                 (user_text (request_args r)) = true)).
Proof.
  split; [|split; [|split; [|split; [|split]]]].
  - assert (Herr : In ("content_type",
                       ValueError ("content_type must be one of: "
                                   ++ PyStr.join ", " allowed_content_types))
                      (field_errors (mk_body c Null sl st fp))).
    { unfold field_errors. cbn [body_content_type check_tag].
      apply in_or_app. right. now left. }
    pose proof (field_error_rejects _ _ _ Herr) as Hrej.
    eexists; eexists. split; [exact Hrej|]. split; [exact Herr|].
    apply rejected_not_served. exact Hrej.
  - assert (Herr : In ("style",
                       ValueError ("style must be one of: "
                                   ++ PyStr.join ", " allowed_styles))
                      (field_errors (mk_body c ct sl Null fp))).
    { unfold field_errors. cbn [body_style].
      apply in_or_app. right. apply in_or_app. right.
      apply in_or_app. right. now left. }
    pose proof (field_error_rejects _ _ _ Herr) as Hrej.
    eexists; eexists. split; [exact Hrej|]. split; [exact Herr|].
    apply rejected_not_served. exact Hrej.
  - intros r. unfold validate.
    cbn [body_content body_content_type body_summary_length body_style
         body_focus_points check_summary_length].
    destruct (check_content c), (check_tag "general" _ ct),
      (check_tag "professional" _ st), (check_focus_points fp);
      try discriminate.
    intros H. injection H as <-. split; reflexivity.
  - intros r. unfold validate.
    cbn [body_content body_content_type body_summary_length body_style
         body_focus_points check_focus_points].
    destruct (check_content c), (check_tag "general" _ ct),
      (check_summary_length sl), (check_tag "professional" _ st);
      try discriminate.
    intros H. injection H as <-. split; reflexivity.
  - intros r. unfold validate.
    cbn [body_content body_content_type body_summary_length body_style
         body_focus_points check_tag].
    destruct (check_content c), (check_summary_length sl),
      (check_focus_points fp); try discriminate.
    intros H. injection H as <-. split; reflexivity.
  - intros r Hv Hl. unfold post_summarize. rewrite Hv.
    rewrite (create_summary_long backend api_key r Hl). cbv zeta.
    split.
    { destruct (PyStr.startswith _ "Error"); reflexivity. }
    split; [reflexivity|]. split; intros Hn.
    + split; [exact Hn|]. apply none_summary_length_rendered. exact Hn.
    + split; [exact Hn|]. apply none_focus_points_rendered. exact Hn.
Qed.

Lemma null_is_not_absent_witness :
  let c := Given scenario_content in
  let with_defaults := mk_request scenario_content (Some "general") (Some 100)
                                  (Some "professional") (Some "main ideas") in
  let with_none := mk_request scenario_content (Some "general") None
                              (Some "professional") (Some "main ideas") in
  validate (mk_body c Absent Absent Absent Absent) = inr with_defaults
  /\ validate (mk_body c Absent Null Absent Absent) = inr with_none
  /\ 50 <= PyStr.len (PyStr.strip (content with_none))
  /\ PyStr.contains "'summary_length': None"
       (user_text (request_args with_none)) = true
  /\ PyStr.contains "'summary_length': 100"
       (user_text (request_args with_none)) = false.
Proof.
  intros c with_defaults with_none.
  assert (Hd : validate (mk_body c Absent Absent Absent Absent)
               = inr with_defaults) by reflexivity.
  assert (Hl : 50 <= PyStr.len (PyStr.strip (content with_none)))
    by (vm_compute; discriminate).
  destruct (null_is_not_absent (completes_with "unused") "key"
              c Absent Absent Absent Absent) as [_ [_ [H3 _]]].
  destruct (H3 with_defaults Hd) as [_ Hn].
  split; [exact Hd|]. split; [exact Hn|]. split; [exact Hl|].
  destruct (null_is_not_absent (completes_with "unused") "key"
              c Absent Absent Absent Null) as [_ [_ [_ [_ [_ H6]]]]].
  destruct (H6 with_none Hn Hl) as [_ [_ [Hs _]]].
  split; [apply Hs; reflexivity | vm_compute; reflexivity].
Defined.

(** C6.  The model identifier and the temperature of every call are the
    fixed "gpt-3.5-turbo" and 0.3, and the two messages are rendered from
    the fixed templates; but the chain maps each of the five template
    variables to [RunnablePassthrough()], so each field of the user message
    receives [str()] of the whole input dictionary, not the text of its own
    parameter.  For the request of scenario A the user message begins
    "Content Type: {'content': 'AAA" and differs from the message the
    specification words; for a valid request whose content has two lines
    the content itself does not occur in the user message, since the
    dictionary shows it quoted and with its line break escaped. *)
Theorem user_fields_hold_whole_input :
  (forall api_key a,
     rendered_messages (summarizer api_key) a
     = inr [(system, system_text); (user, user_text a)]
     /\ call_model (submitted_call (model (llm (summarizer api_key)))
                                   (temperature (llm (summarizer api_key))) a)
        = "gpt-3.5-turbo"
     /\ call_temperature
          (submitted_call (model (llm (summarizer api_key)))
                          (temperature (llm (summarizer api_key))) a)
        = 3 # 10)
  /\ validate scenario_body = inr scenario_request
  /\ PyStr.startswith (user_text (request_args scenario_request))
       "Content Type: {'content': 'AAA" = true
  /\ PyStr.startswith (spec_user_instruction (request_args scenario_request))
       "Content Type: general" = true
  /\ user_text (request_args scenario_request)
     <> spec_user_instruction (request_args scenario_request)
  /\ validate (content_only two_line_content)
     = inr (mk_request two_line_content (Some "general") (Some 100)
                       (Some "professional") (Some "main ideas"))
  /\ PyStr.contains two_line_content
       (spec_user_instruction
          (mk_args two_line_content (Some "general") (Some 100)
                   (Some "professional") (Some "main ideas"))) = true
  /\ PyStr.contains two_line_content
       (user_text
          (mk_args two_line_content (Some "general") (Some 100)
                   (Some "professional") (Some "main ideas"))) = false.
Proof.
  split.
  { intros api_key a. split; [apply rendered_messages_build|].
    split; reflexivity. }
  split; [reflexivity|]. split; [reflexivity|]. split; [reflexivity|].
  split.
  { intros E.
    assert (H : PyStr.startswith
                  (user_text (request_args scenario_request))
                  "Content Type: general" = false) by reflexivity.
    rewrite E in H. discriminate H. }
  split; [reflexivity|]. split; vm_compute; reflexivity.
Qed.

(* ================================================================== *)
(** ** Further lemmas on [strip] and [split] *)
(* ================================================================== *)

Lemma lstrip_head (s : string) (c : ascii) (r : string) :
  PyStr.lstrip s = String c r -> PyStr.isspace c = false.
Proof.
  induction s as [|d s IH]; simpl; [discriminate|].
  destruct (PyStr.isspace d) eqn:E; [exact IH|].
  intros H. injection H as <- _. exact E.
Qed.

Lemma rstrip_head (c : ascii) (s : string) :
  PyStr.isspace c = false ->
  exists r, PyStr.rstrip (String c s) = String c r.
Proof.
  intros H. simpl. destruct (PyStr.rstrip s).
  - rewrite H. eauto.
  - eauto.
Qed.

Lemma rstrip_idempotent (s : string) :
  PyStr.rstrip (PyStr.rstrip s) = PyStr.rstrip s.
Proof.
  induction s as [|c s IH]; [reflexivity|].
  simpl. destruct (PyStr.rstrip s) as [|d r] eqn:E.
  - destruct (PyStr.isspace c) eqn:Ec; [reflexivity|].
    simpl. rewrite Ec. reflexivity.
  - change (PyStr.rstrip (String c (String d r)))
      with (match PyStr.rstrip (String d r) with
            | EmptyString =>
                if PyStr.isspace c then EmptyString else String c EmptyString
            | q => String c q
            end).
    rewrite IH. reflexivity.
Qed.

Lemma strip_idempotent (s : string) :
  PyStr.strip (PyStr.strip s) = PyStr.strip s.
Proof.
  unfold PyStr.strip. destruct (PyStr.lstrip s) as [|c u] eqn:E;
    [reflexivity|].
  pose proof (lstrip_head s c u E) as Hc.
  destruct (rstrip_head c u Hc) as [r Hr]. rewrite Hr.
  simpl PyStr.lstrip. rewrite Hc. rewrite <- Hr. apply rstrip_idempotent.
Qed.

Lemma lstrip_empty_iff (s : string) :
  PyStr.lstrip s = EmptyString <-> all_space s = true.
Proof.
  induction s as [|c s IH]; simpl; [tauto|].
  destruct (PyStr.isspace c); simpl; [exact IH|].
  split; discriminate.
Qed.

Lemma rstrip_empty_iff (s : string) :
  PyStr.rstrip s = EmptyString <-> all_space s = true.
Proof.
  induction s as [|c s IH]; simpl; [tauto|].
  destruct (PyStr.rstrip s) as [|d r].
  - destruct (PyStr.isspace c); simpl.
    + split; [intros _; now apply IH | reflexivity].
    + split; discriminate.
  - split; [discriminate|]. intros H. apply andb_true_iff in H.
    destruct H as [_ H]. apply IH in H. discriminate.
Qed.

Lemma strip_empty_iff (s : string) :
  PyStr.strip s = EmptyString <-> all_space s = true.
Proof.
  unfold PyStr.strip. rewrite rstrip_empty_iff.
  destruct (PyStr.lstrip s) as [|c u] eqn:E.
  - apply lstrip_empty_iff in E. simpl. tauto.
  - pose proof (lstrip_head s c u E) as Hc. simpl. rewrite Hc. simpl.
    split; [discriminate|]. intros H. apply lstrip_empty_iff in H.
    congruence.
Qed.

Lemma split_from_lstrip (s : string) :
  PyStr.split_from EmptyString (PyStr.lstrip s)
  = PyStr.split_from EmptyString s.
Proof.
  induction s as [|c s IH]; [reflexivity|].
  simpl. destruct (PyStr.isspace c) eqn:E; [exact IH|].
  simpl. rewrite E. reflexivity.
Qed.

Lemma split_from_rstrip (s tok : string) :
  PyStr.split_from tok (PyStr.rstrip s) = PyStr.split_from tok s.
Proof.
  revert tok. induction s as [|c s IH]; intros tok; [reflexivity|].
  simpl PyStr.rstrip. destruct (PyStr.rstrip s) as [|d r] eqn:E.
  - destruct (PyStr.isspace c) eqn:Ec.
    + simpl. rewrite Ec. rewrite <- IH. simpl.
      destruct (PyStr.truthy tok); reflexivity.
    + simpl. rewrite Ec. rewrite <- IH. reflexivity.
  - change (PyStr.split_from tok (String c (String d r)))
      with (if PyStr.isspace c
            then (if PyStr.truthy tok
                  then tok :: PyStr.split_from EmptyString (String d r)
                  else PyStr.split_from EmptyString (String d r))
            else PyStr.split_from (tok ++ String c EmptyString) (String d r)).
    rewrite !IH. reflexivity.
Qed.

Lemma split_strip (s : string) : PyStr.split (PyStr.strip s) = PyStr.split s.
Proof.
  unfold PyStr.split, PyStr.strip.
  rewrite split_from_rstrip. apply split_from_lstrip.
Qed.

Lemma split_from_length (s tok : string) :
  (List.length (PyStr.split_from tok s)
   <= (if PyStr.truthy tok then 1 else 0) + String.length s)%nat.
Proof.
  revert tok. induction s as [|c s IH]; intros tok; simpl.
  - destruct (PyStr.truthy tok); simpl; lia.
  - destruct (PyStr.isspace c).
    + pose proof (IH EmptyString) as H. simpl in H.
      destruct (PyStr.truthy tok); simpl; lia.
    + pose proof (IH (tok ++ String c EmptyString)) as H.
      destruct (PyStr.truthy (tok ++ String c EmptyString));
        destruct (PyStr.truthy tok); simpl in *; lia.
Qed.

Lemma split_from_nil_iff (s tok : string) :
  PyStr.split_from tok s = []
  <-> PyStr.truthy tok = false /\ all_space s = true.
Proof.
  revert tok. induction s as [|c s IH]; intros tok; simpl.
  - destruct (PyStr.truthy tok); split; intros H;
      try discriminate; try tauto. destruct H; discriminate.
  - destruct (PyStr.isspace c); simpl.
    + destruct (PyStr.truthy tok).
      * split; [discriminate | intros [H _]; discriminate].
      * rewrite IH. simpl. tauto.
    + rewrite IH. split; intros [H1 H2]; [|discriminate H2].
      destruct tok; simpl in H1; discriminate H1.
Qed.

(* ================================================================== *)
(** ** Further properties of the request model *)
(* ================================================================== *)

Lemma validate_inl (b : request_body) (errors : list field_error) :
  validate b = inl errors -> errors = field_errors b /\ errors <> [].
Proof.
  unfold validate, field_errors.
  destruct (check_content _), (check_tag "general" _ _),
    (check_summary_length _), (check_tag "professional" _ _),
    (check_focus_points _); simpl; intros H;
    try discriminate H; injection H as <-; split;
    try reflexivity; discriminate.
Qed.

Lemma validate_inr_iff (b : request_body) (r : SummaryRequest) :
  validate b = inr r
  <-> check_content (body_content b) = inr (content r)
      /\ check_tag "general" validate_content_type (body_content_type b)
         = inr (content_type r)
      /\ check_summary_length (body_summary_length b) = inr (summary_length r)
      /\ check_tag "professional" validate_style (body_style b)
         = inr (style r)
      /\ check_focus_points (body_focus_points b) = inr (focus_points r).
Proof.
  split.
  - unfold validate.
    destruct (check_content _), (check_tag "general" _ _),
      (check_summary_length _), (check_tag "professional" _ _),
      (check_focus_points _); intros H; try discriminate H.
    injection H as <-. repeat split.
  - intros [H1 [H2 [H3 [H4 H5]]]]. destruct r.
    apply validate_accepts; assumption.
Qed.

Lemma py_in_iff (v : string) (allowed : list string) :
  py_in (Some v) allowed = true <-> In v allowed.
Proof.
  simpl. rewrite existsb_exists. split.
  - intros [x [Hx E]]. apply String.eqb_eq in E. now subst.
  - intros H. exists v. split; [exact H | apply String.eqb_refl].
Qed.

Lemma check_content_inr_iff (v : supplied string) (c : string) :
  check_content v = inr c <-> v = Given c /\ 50 <= PyStr.len c <= 50000.
Proof.
  destruct v as [| |s]; simpl.
  - split; [discriminate | intros [H _]; discriminate].
  - split; [discriminate | intros [H _]; discriminate].
  - destruct (PyStr.len s <? 50) eqn:E1.
    + apply Z.ltb_lt in E1. split; [discriminate|].
      intros [H Hr]. injection H as ->. lia.
    + apply Z.ltb_ge in E1. destruct (PyStr.len s >? 50000) eqn:E2.
      * rewrite Z.gtb_ltb in E2. apply Z.ltb_lt in E2.
        split; [discriminate|]. intros [H Hr]. injection H as ->. lia.
      * rewrite Z.gtb_ltb in E2. apply Z.ltb_ge in E2.
        split; [intros H; injection H as <-; split; [reflexivity | lia]|].
        intros [H _]. injection H as ->. reflexivity.
Qed.

Lemma check_tag_content_type_inr_iff (v : supplied string) (o : option string) :
  check_tag "general" validate_content_type v = inr o
  <-> (v = Absent /\ o = Some "general")
      \/ exists s, v = Given s /\ In s allowed_content_types /\ o = Some s.
Proof.
  destruct v as [| |s]; unfold check_tag, validate_content_type.
  - split; [intros H; injection H as <-; now left|].
    intros [[_ ->] | [s [H _]]]; [reflexivity | discriminate].
  - simpl. split; [discriminate|].
    intros [[H _] | [s [H _]]]; discriminate.
  - destruct (py_in (Some s) allowed_content_types) eqn:E; cbn [negb].
    + apply py_in_iff in E. split.
      * intros H. injection H as <-. right. exists s. now repeat split.
      * intros [[H _] | [s' [H [_ ->]]]]; [discriminate|].
        injection H as ->. reflexivity.
    + split; [discriminate|].
      intros [[H _] | [s' [H [Hin _]]]]; [discriminate|].
      injection H as ->. apply py_in_iff in Hin. congruence.
Qed.

Lemma check_tag_style_inr_iff (v : supplied string) (o : option string) :
  check_tag "professional" validate_style v = inr o
  <-> (v = Absent /\ o = Some "professional")
      \/ exists s, v = Given s /\ In s allowed_styles /\ o = Some s.
Proof.
  destruct v as [| |s]; unfold check_tag, validate_style.
  - split; [intros H; injection H as <-; now left|].
    intros [[_ ->] | [s [H _]]]; [reflexivity | discriminate].
  - simpl. split; [discriminate|].
    intros [[H _] | [s [H _]]]; discriminate.
  - destruct (py_in (Some s) allowed_styles) eqn:E; cbn [negb].
    + apply py_in_iff in E. split.
      * intros H. injection H as <-. right. exists s. now repeat split.
      * intros [[H _] | [s' [H [_ ->]]]]; [discriminate|].
        injection H as ->. reflexivity.
    + split; [discriminate|].
      intros [[H _] | [s' [H [Hin _]]]]; [discriminate|].
      injection H as ->. apply py_in_iff in Hin. congruence.
Qed.

Lemma check_summary_length_inr_iff (v : supplied Z) (o : option Z) :
  check_summary_length v = inr o
  <-> (v = Absent /\ o = Some 100) \/ (v = Null /\ o = None)
      \/ exists z, v = Given z /\ 20 <= z <= 500 /\ o = Some z.
Proof.
  destruct v as [| |z]; simpl.
  - split; [intros H; injection H as <-; now left|].
    intros [[_ ->] | [[H _] | [z [H _]]]]; try discriminate; reflexivity.
  - split; [intros H; injection H as <-; right; now left|].
    intros [[H _] | [[_ ->] | [z [H _]]]]; try discriminate; reflexivity.
  - destruct (z <? 20) eqn:E1.
    + apply Z.ltb_lt in E1. split; [discriminate|].
      intros [[H _] | [[H _] | [z' [H [Hr _]]]]]; try discriminate.
      injection H as ->. lia.
    + apply Z.ltb_ge in E1. destruct (z >? 500) eqn:E2;
        rewrite Z.gtb_ltb in E2.
      * apply Z.ltb_lt in E2. split; [discriminate|].
        intros [[H _] | [[H _] | [z' [H [Hr _]]]]]; try discriminate.
        injection H as ->. lia.
      * apply Z.ltb_ge in E2. split.
        -- intros H. injection H as <-. right. right. exists z.
           repeat split; lia.
        -- intros [[H _] | [[H _] | [z' [H [_ ->]]]]]; try discriminate.
           injection H as ->. reflexivity.
Qed.

Lemma check_focus_points_inr_iff (v : supplied string) (o : option string) :
  check_focus_points v = inr o
  <-> (v = Absent /\ o = Some "main ideas") \/ (v = Null /\ o = None)
      \/ exists s, v = Given s /\ o = Some s.
Proof.
  destruct v as [| |s]; simpl.
  - split; [intros H; injection H as <-; now left|].
    intros [[_ ->] | [[H _] | [z [H _]]]]; try discriminate; reflexivity.
  - split; [intros H; injection H as <-; right; now left|].
    intros [[H _] | [[_ ->] | [z [H _]]]]; try discriminate; reflexivity.
  - split; [intros H; injection H as <-; right; right; eauto|].
    intros [[H _] | [[H _] | [z [H ->]]]]; try discriminate.
    injection H as ->. reflexivity.
Qed.


(** X1.  A summary length below 20 or above 500 is rejected, whatever the
    other fields hold: the errors carry, for the field "summary_length",
    the bound that is broken; the endpoint answers 422 and calls nothing. *)
Theorem summary_length_out_of_range
    (backend : llm_call -> outcome) (api_key : string)
    (c ct st fp : supplied string) (z : Z) :
  z < 20 \/ 500 < z ->
  exists errors,
    validate (mk_body c ct (Given z) st fp) = inl errors
    /\ In ("summary_length", if z <? 20 then NotGe 20 else NotLe 500) errors
    /\ post_summarize backend api_key (mk_body c ct (Given z) st fp)
       = (Response422 errors, []).
Proof.
  intros Hz.
  assert (Hin : In ("summary_length", if z <? 20 then NotGe 20 else NotLe 500)
                   (field_errors (mk_body c ct (Given z) st fp))).
  { unfold field_errors. cbn [body_summary_length check_summary_length].
    apply in_or_app. right. apply in_or_app. right. apply in_or_app. left.
    destruct (z <? 20) eqn:E1; [now left|].
    apply Z.ltb_ge in E1.
    assert (E2 : (z >? 500) = true) by (rewrite Z.gtb_ltb; apply Z.ltb_lt; lia).
    rewrite E2. now left. }
  pose proof (field_error_rejects _ _ _ Hin) as Hrej.
  exists (field_errors (mk_body c ct (Given z) st fp)).
  split; [exact Hrej|]. split; [exact Hin|].
  apply rejected_not_served. exact Hrej.
Qed.

Lemma summary_length_out_of_range_witness :
  (501 < 20 \/ 500 < 501)
  /\ post_summarize (completes_with "unused") "key"
       (mk_body (Given scenario_content) Absent (Given 501) Absent Absent)
     = (Response422 [("summary_length", NotLe 500)], []).
Proof.
  assert (Hz : 501 < 20 \/ 500 < 501) by (right; reflexivity).
  split; [exact Hz|].
  destruct (summary_length_out_of_range (completes_with "unused") "key"
              (Given scenario_content) Absent Absent Absent 501 Hz)
    as [errors [Hv [_ Hp]]].
  rewrite Hp. f_equal. f_equal.
  assert (E : inl errors
              = validate (mk_body (Given scenario_content) Absent (Given 501)
                                  Absent Absent)) by (symmetry; exact Hv).
  injection E as ->. reflexivity.
Defined.

(** X4.  A body without content, or with [null] for content, is rejected,
    whatever the other fields hold, with "field required", respectively
    "none is not allowed", on the field "content"; the endpoint answers 422
    and calls nothing. *)
Theorem content_is_required
    (backend : llm_call -> outcome) (api_key : string)
    (ct st fp : supplied string) (sl : supplied Z) :
  (exists errors,
     validate (mk_body Absent ct sl st fp) = inl errors
     /\ In ("content", FieldRequired) errors
     /\ post_summarize backend api_key (mk_body Absent ct sl st fp)
        = (Response422 errors, []))
  /\ (exists errors,
        validate (mk_body Null ct sl st fp) = inl errors
        /\ In ("content", NoneNotAllowed) errors
        /\ post_summarize backend api_key (mk_body Null ct sl st fp)
           = (Response422 errors, [])).
Proof.
  split.
  - assert (Hin : In ("content", FieldRequired)
                     (field_errors (mk_body Absent ct sl st fp)))
      by (unfold field_errors; simpl; now left).
    pose proof (field_error_rejects _ _ _ Hin) as Hrej.
    eexists. split; [exact Hrej|]. split; [exact Hin|].
    apply rejected_not_served. exact Hrej.
  - assert (Hin : In ("content", NoneNotAllowed)
                     (field_errors (mk_body Null ct sl st fp)))
      by (unfold field_errors; simpl; now left).
    pose proof (field_error_rejects _ _ _ Hin) as Hrej.
    eexists. split; [exact Hrej|]. split; [exact Hin|].
    apply rejected_not_served. exact Hrej.
Qed.


(* ================================================================== *)
(** ** Further properties of the endpoint *)
(* ================================================================== *)

Section EndpointFacts.

Variable backend : llm_call -> outcome.
Variable api_key : string.

Lemma post_summarize_short (b : request_body) (r : SummaryRequest) :
  validate b = inr r ->
  PyStr.len (PyStr.strip (content r)) < 50 ->
  post_summarize backend api_key b
  = (ResponseError 500 (wrapped_detail short_content_error),
     [CallSummarize (request_args r)]).
Proof.
  intros Hv Hs. unfold post_summarize.
  rewrite Hv, (create_summary_short backend api_key r Hs). reflexivity.
Qed.

Lemma post_summarize_long (b : request_body) (r : SummaryRequest) :
  validate b = inr r ->
  50 <= PyStr.len (PyStr.strip (content r)) ->
  post_summarize backend api_key b
  = (if PyStr.startswith (summarizer_text backend r) "Error"
     then ResponseError 500 (wrapped_detail (summarizer_text backend r))
     else Response200
            (mk_response (summarizer_text backend r)
               (Z.of_nat (List.length (PyStr.split (summarizer_text backend r))))
               (PyStr.len (summarizer_text backend r)) (echo_parameters r)),
     [CallSummarize (request_args r); CallBackend (request_call r)]).
Proof.
  intros Hv Hl. unfold post_summarize.
  rewrite Hv, (create_summary_long backend api_key r Hl). cbv zeta.
  fold (summarizer_text backend r).
  destruct (PyStr.startswith (summarizer_text backend r) "Error"); reflexivity.
Qed.

End EndpointFacts.

(** X5.  Whatever the body and whatever the backend does, the endpoint
    answers 200, 422 or 500 and no other exception leaves the handler; it
    answers 422 exactly when validation fails; the service is called once
    for a valid body and not at all otherwise; the backend is called at
    most once, and exactly once when the body is valid and its content has
    at least 50 characters once trimmed. *)
Theorem endpoint_statuses_and_calls
    (backend : llm_call -> outcome) (api_key : string) (b : request_body) :
  let p := post_summarize backend api_key b in
  ((exists body, fst p = Response200 body)
   \/ (exists errors, fst p = Response422 errors)
   \/ (exists detail, fst p = ResponseError 500 detail))
  /\ (forall errors, fst p = Response422 errors <-> validate b = inl errors)
  /\ (summarize_calls (snd p) <= 1)%nat
  /\ (backend_calls (snd p) <= 1)%nat
  /\ (summarize_calls (snd p) = 1%nat <-> exists r, validate b = inr r)
  /\ (backend_calls (snd p) = 1%nat
      <-> exists r, validate b = inr r
                    /\ 50 <= PyStr.len (PyStr.strip (content r))).
Proof.
  cbv zeta. destruct (validate b) as [errs | r] eqn:Hv.
  - rewrite (rejected_not_served backend api_key b errs Hv).
    cbn [fst snd summarize_calls backend_calls filter List.length].
    split; [right; left; eauto|].
    split; [intros errors; split; intros H; injection H as <-; reflexivity|].
    split; [lia|]. split; [lia|].
    split; (split; [discriminate | intros [r' H]]).
    + discriminate H.
    + destruct H as [H _]. discriminate H.
  - destruct (Z.lt_ge_cases (PyStr.len (PyStr.strip (content r))) 50)
      as [Hs | Hl].
    + rewrite (post_summarize_short backend api_key b r Hv Hs).
      cbn [fst snd summarize_calls backend_calls filter List.length
           is_summarize_call is_backend_call].
      split; [right; right; eauto|].
      split; [intros errors; split; discriminate|].
      split; [lia|]. split; [lia|].
      split; [split; eauto|].
      split; [discriminate|]. intros [r' [H Hl]].
      injection H as <-. lia.
    + rewrite (post_summarize_long backend api_key b r Hv Hl).
      cbn [fst snd summarize_calls backend_calls filter List.length
           is_summarize_call is_backend_call].
      split.
      { destruct (PyStr.startswith _ "Error"); [right; right | left]; eauto. }
      split.
      { intros errors.
        destruct (PyStr.startswith _ "Error"); split; discriminate. }
      split; [lia|]. split; [lia|].
      split; split; eauto.
Qed.

(** X6.  A body that passes validation but whose content has fewer than 50
    characters once trimmed (blank padding counts for the validator, not for
    the service) is answered with status 500 and the detail below; the
    service is called and the backend is not. *)
Theorem padded_content_is_a_server_error
    (backend : llm_call -> outcome) (api_key : string)
    (b : request_body) (r : SummaryRequest) :
  validate b = inr r ->
  PyStr.len (PyStr.strip (content r)) < 50 ->
  post_summarize backend api_key b
  = (ResponseError 500
       "Internal server error: 500: Error: Content too short to summarize effectively (min 50 characters)",
     [CallSummarize (request_args r)]).
Proof. intros Hv Hs. apply (post_summarize_short backend api_key b r Hv Hs). Qed.

Lemma padded_content_is_a_server_error_witness :
  let c := "Short note." ++ letters " "%char 60 in
  let r := mk_request c (Some "general") (Some 100) (Some "professional")
                      (Some "main ideas") in
  validate (content_only c) = inr r
  /\ PyStr.len (PyStr.strip (content r)) < 50
  /\ fst (post_summarize (completes_with "unused") "key" (content_only c))
     = ResponseError 500
         "Internal server error: 500: Error: Content too short to summarize effectively (min 50 characters)".
Proof.
  intros c r.
  assert (Hv : validate (content_only c) = inr r) by reflexivity.
  assert (Hs : PyStr.len (PyStr.strip (content r)) < 50) by reflexivity.
  split; [exact Hv|]. split; [exact Hs|].
  rewrite (padded_content_is_a_server_error (completes_with "unused") "key"
             (content_only c) r Hv Hs).
  reflexivity.
Defined.

(** X7.  The endpoint answers 200 exactly when the body is valid, its
    content has at least 50 characters once trimmed, the backend completes
    and the trimmed completion does not begin with "Error"; the body of the
    response is then the trimmed completion, its word and character counts,
    and the four parameters of the validated request. *)
Theorem success_iff
    (backend : llm_call -> outcome) (api_key : string)
    (b : request_body) (body : SummaryResponse) :
  fst (post_summarize backend api_key b) = Response200 body
  <-> exists r text,
        validate b = inr r
        /\ 50 <= PyStr.len (PyStr.strip (content r))
        /\ backend (request_call r) = Completion text
        /\ PyStr.startswith (PyStr.strip text) "Error" = false
        /\ body = mk_response (PyStr.strip text)
                    (Z.of_nat (List.length (PyStr.split (PyStr.strip text))))
                    (PyStr.len (PyStr.strip text))
                    [ ("content_type", of_opt_str (content_type r));
                      ("summary_length", of_opt_int (summary_length r));
                      ("style", of_opt_str (style r));
                      ("focus_points", of_opt_str (focus_points r)) ].
Proof.
  split.
  - destruct (validate b) as [errs | r] eqn:Hv.
    + rewrite (rejected_not_served backend api_key b errs Hv). discriminate.
    + destruct (Z.lt_ge_cases (PyStr.len (PyStr.strip (content r))) 50)
        as [Hs | Hl].
      * rewrite (post_summarize_short backend api_key b r Hv Hs).
        discriminate.
      * rewrite (post_summarize_long backend api_key b r Hv Hl).
        unfold summarizer_text.
        destruct (backend (request_call r)) as [text | text] eqn:Hb.
        -- destruct (PyStr.startswith (PyStr.strip text) "Error") eqn:E;
             [discriminate|].
           intros H. injection H as <-. exists r, text. now repeat split.
        -- discriminate.
  - intros [r [text [Hv [Hl [Hb [E ->]]]]]].
    rewrite (post_summarize_long backend api_key b r Hv Hl).
    unfold summarizer_text. rewrite Hb, E. reflexivity.
Qed.

Lemma success_iff_witness :
  exists body,
    fst (post_summarize (completes_with " Two words ") "key" scenario_body)
    = Response200 body
    /\ summary body = "Two words" /\ word_count body = 2
    /\ char_count body = 9.
Proof.
  eexists. split.
  - apply success_iff. exists scenario_request, " Two words ".
    split; [reflexivity|]. split; [vm_compute; discriminate|].
    split; [reflexivity|]. split; reflexivity.
  - repeat split.
Defined.

(** X8.  Every 200 response is well formed: its summary carries no leading
    or trailing whitespace and does not begin with "Error", the character
    count is the length of the summary, the word count lies between 0 and
    the character count, and it is 0 exactly when the summary is empty. *)
Theorem success_body_is_well_formed
    (backend : llm_call -> outcome) (api_key : string)
    (b : request_body) (body : SummaryResponse) :
  fst (post_summarize backend api_key b) = Response200 body ->
  PyStr.strip (summary body) = summary body
  /\ PyStr.startswith (summary body) "Error" = false
  /\ char_count body = PyStr.len (summary body)
  /\ 0 <= word_count body <= char_count body
  /\ (word_count body = 0 <-> summary body = EmptyString).
Proof.
  intros H. apply success_iff in H.
  destruct H as [r [text [_ [_ [_ [E ->]]]]]].
  cbn [summary word_count char_count].
  split; [apply strip_idempotent|]. split; [exact E|].
  split; [reflexivity|]. split.
  - pose proof (split_from_length (PyStr.strip text) EmptyString) as Hw.
    unfold PyStr.split, PyStr.len. simpl in Hw. lia.
  - unfold PyStr.split. split.
    + intros H0.
      assert (Hn : PyStr.split_from EmptyString (PyStr.strip text) = []).
      { destruct (PyStr.split_from EmptyString (PyStr.strip text));
          [reflexivity | simpl in H0; lia]. }
      apply split_from_nil_iff in Hn. destruct Hn as [_ Hn].
      apply strip_empty_iff in Hn. rewrite strip_idempotent in Hn. exact Hn.
    + intros ->. reflexivity.
Qed.

Lemma success_body_is_well_formed_witness :
  exists body,
    fst (post_summarize (completes_with "  Costs rose; revenue fell.  ") "key"
                        scenario_body) = Response200 body
    /\ PyStr.strip (summary body) = summary body
    /\ 0 <= word_count body <= char_count body.
Proof.
  eexists. split; [reflexivity|].
  destruct (success_body_is_well_formed
              (completes_with "  Costs rose; revenue fell.  ") "key"
              scenario_body _ eq_refl) as [H1 [_ [_ [H4 _]]]].
  split; [exact H1 | exact H4].
Defined.

(** X9.  Trimming does not change the words: the word count of a 200
    response is the number of words of the completion as the backend gave
    it, and its character count is at most the length of that completion. *)
Theorem counts_against_raw_completion
    (backend : llm_call -> outcome) (api_key : string)
    (b : request_body) (r : SummaryRequest) (text : string)
    (body : SummaryResponse) :
  validate b = inr r ->
  backend (request_call r) = Completion text ->
  fst (post_summarize backend api_key b) = Response200 body ->
  word_count body = Z.of_nat (List.length (PyStr.split text))
  /\ char_count body <= PyStr.len text.
Proof.
  intros Hv Hb H. apply success_iff in H.
  destruct H as [r' [text' [Hv' [_ [Hb' [_ ->]]]]]].
  rewrite Hv in Hv'. injection Hv' as <-.
  rewrite Hb in Hb'. injection Hb' as <-.
  cbn [word_count char_count]. rewrite split_strip.
  split; [reflexivity | apply strip_len_le].
Qed.

Lemma counts_against_raw_completion_witness :
  let text := String "010"%char "  Costs rose;   revenue fell.  " in
  exists body,
    validate scenario_body = inr scenario_request
    /\ fst (post_summarize (completes_with text) "key" scenario_body)
       = Response200 body
    /\ word_count body = 4 /\ char_count body <= 32.
Proof.
  intros text. eexists. split; [reflexivity|]. split; [reflexivity|].
  apply (counts_against_raw_completion (completes_with text) "key"
           scenario_body scenario_request text _ eq_refl eq_refl eq_refl).
Defined.

(** X10.  A completion that is empty or only whitespace is not an error:
    the endpoint answers 200 with an empty summary, word count 0 and
    character count 0. *)
Theorem blank_completion_is_an_empty_summary
    (backend : llm_call -> outcome) (api_key : string)
    (b : request_body) (r : SummaryRequest) (text : string) :
  validate b = inr r ->
  50 <= PyStr.len (PyStr.strip (content r)) ->
  backend (request_call r) = Completion text ->
  all_space text = true ->
  fst (post_summarize backend api_key b)
  = Response200 (mk_response EmptyString 0 0 (echo_parameters r)).
Proof.
  intros Hv Hl Hb Hsp. apply strip_empty_iff in Hsp.
  rewrite (post_summarize_long backend api_key b r Hv Hl).
  unfold summarizer_text. rewrite Hb, Hsp. reflexivity.
Qed.

Lemma blank_completion_is_an_empty_summary_witness :
  validate scenario_body = inr scenario_request
  /\ 50 <= PyStr.len (PyStr.strip (content scenario_request))
  /\ all_space (letters " "%char 3) = true
  /\ fst (post_summarize (completes_with (letters " "%char 3)) "key"
                         scenario_body)
     = Response200 (mk_response EmptyString 0 0
                                (echo_parameters scenario_request)).
Proof.
  assert (Hl : 50 <= PyStr.len (PyStr.strip (content scenario_request)))
    by (vm_compute; discriminate).
  split; [reflexivity|]. split; [exact Hl|]. split; [reflexivity|].
  apply (blank_completion_is_an_empty_summary
           (completes_with (letters " "%char 3)) "key" scenario_body
           scenario_request (letters " "%char 3) eq_refl Hl eq_refl eq_refl).
Defined.

(* ================================================================== *)
(** ** Further properties of the summarizer and of start-up *)
(* ================================================================== *)

(** X11.  The application starts exactly when the API key is set and not
    empty, and then serves with the summarizer built from that key, the
    model "gpt-3.5-turbo" and the temperature 0.3; with the key missing or
    empty the process prints two lines and exits with code 1. *)
Theorem startup_needs_the_key (env_key : option string) :
  (forall s, startup env_key = Running s
             <-> exists key, env_key = Some key /\ key <> EmptyString
                             /\ s = build key "gpt-3.5-turbo" (3 # 10))
  /\ (env_key = None \/ env_key = Some EmptyString
      <-> startup env_key
          = Exited 1
              [ "Failed to initialize summarizer: OPENAI_API_KEY not found in environment variables";
                "Please ensure OPENAI_API_KEY is set in .env file" ]).
Proof.
  unfold startup, SmartSummarizer_init.
  destruct env_key as [[|c key]|]; cbn [PyStr.truthy negb].
  - split.
    + intros s. split; [discriminate|].
      intros [key [H [Hne _]]]. injection H as <-. now elim Hne.
    + split; [reflexivity | intros _; now right].
  - split.
    + intros s. split.
      * intros H. injection H as <-. exists (String c key).
        repeat split. discriminate.
      * intros [key' [H [_ ->]]]. injection H as <-. reflexivity.
    + split; [intros [H | H]; discriminate | discriminate].
  - split.
    + intros s. split; [discriminate|]. intros [key [H _]]. discriminate.
    + split; [reflexivity | intros _; now left].
Qed.

Lemma startup_needs_the_key_witness :
  startup (Some "sk-test") = Running (summarizer "sk-test").
Proof.
  apply startup_needs_the_key. exists "sk-test".
  split; [reflexivity|]. split; [discriminate | reflexivity].
Defined.

(** X12.  A summarizer constructed with a model and a temperature submits
    exactly those with every call it makes, together with two messages: the
    fixed system message first, then the user message; [summarize] makes at
    most one call, never raises, and a result that does not begin with
    "Error" is the trimmed completion of a call that succeeded. *)
Theorem summarize_calls_as_configured
    (backend : llm_call -> outcome) (env_key : option string)
    (m : string) (t : Q) (self : SmartSummarizer) (a : summarize_args) :
  SmartSummarizer_init env_key m t = inr self ->
  (exists s, result_of (summarize backend self a) = inr s
             /\ (PyStr.startswith s "Error" = false ->
                 50 <= PyStr.len (PyStr.strip (arg_content a))
                 /\ exists text,
                      backend (submitted_call m t a) = Completion text
                      /\ s = PyStr.strip text))
  /\ (backend_calls (trace_of (summarize backend self a)) <= 1)%nat
  /\ (forall call,
        In call (calls_of (trace_of (summarize backend self a))) ->
        call_model call = m /\ call_temperature call = t
        /\ exists u, call_messages call = [(system, system_text); (user, u)]).
Proof.
  intros Hinit.
  assert (Hself : exists k, self = build k m t).
  { unfold SmartSummarizer_init in Hinit. destruct env_key as [k|];
      [|discriminate].
    destruct (negb (PyStr.truthy k)); [discriminate|].
    injection Hinit as <-. eauto. }
  destruct Hself as [k ->].
  destruct (Z.lt_ge_cases (PyStr.len (PyStr.strip (arg_content a))) 50)
    as [Hs | Hl].
  - rewrite (summarize_short backend k m t a Hs).
    cbn [result_of trace_of fst snd backend_calls filter is_backend_call
         List.length calls_of].
    split; [|split; [lia | intros call []]].
    exists short_content_error. split; [reflexivity | discriminate].
  - rewrite (summarize_long backend k m t a Hl).
    cbn [result_of trace_of fst snd backend_calls filter is_backend_call
         List.length calls_of].
    split; [|split; [lia|]].
    + eexists. split; [reflexivity|].
      destruct (backend (submitted_call m t a)) as [text | text];
        [|discriminate].
      intros _. split; [exact Hl | eauto].
    + intros call [<- | []]. split; [reflexivity|]. split; [reflexivity|].
      eexists. reflexivity.
Qed.

Lemma summarize_calls_as_configured_witness :
  let args := request_args scenario_request in
  SmartSummarizer_init (Some "sk-test") "gpt-4o" (1 # 2)
  = inr (build "sk-test" "gpt-4o" (1 # 2))
  /\ (backend_calls
        (trace_of (summarize (completes_with "Fine.")
                             (build "sk-test" "gpt-4o" (1 # 2)) args))
      <= 1)%nat.
Proof.
  intros args. split; [reflexivity|].
  apply (summarize_calls_as_configured (completes_with "Fine.")
           (Some "sk-test") "gpt-4o" (1 # 2)
           (build "sk-test" "gpt-4o" (1 # 2)) args eq_refl).
Defined.

Lemma plain_char_repr (c : ascii) :
  plain_char c = true ->
  PyStr.repr_char PyStr.squote c = String c EmptyString
  /\ Ascii.eqb PyStr.squote c = false.
Proof.
  destruct c as [[] [] [] [] [] [] [] []]; intros H;
    try discriminate H; split; reflexivity.
Qed.

Lemma plain_repr_body (s : string) :
  plain s = true ->
  PyStr.repr_body PyStr.squote s = s /\ PyStr.has_char PyStr.squote s = false.
Proof.
  induction s as [|c s IH]; [now split|].
  cbn [plain]. intros H. apply andb_true_iff in H. destruct H as [Hc Hs].
  destruct (plain_char_repr c Hc) as [Hr Hq].
  destruct (IH Hs) as [Hb Hh].
  cbn [PyStr.repr_body PyStr.has_char]. rewrite Hr, Hb, Hq, Hh.
  split; reflexivity.
Qed.

Lemma plain_repr_str (s : string) :
  plain s = true ->
  PyStr.repr_str s = String PyStr.squote (s ++ String PyStr.squote EmptyString).
Proof.
  intros H. destruct (plain_repr_body s H) as [Hb Hh].
  unfold PyStr.repr_str. rewrite Hh. cbn [andb]. rewrite Hb. reflexivity.
Qed.

Lemma quoted_content (c rest : string) :
  "{'content': "
  ++ String PyStr.squote (c ++ String PyStr.squote EmptyString)
  ++ ", 'content_type': " ++ rest
  = ("{'content': '" ++ c ++ "', 'content_type': ") ++ rest.
Proof.
  rewrite (append_assoc "{'content': '").
  rewrite (append_assoc c).
  change (String PyStr.squote (c ++ String PyStr.squote EmptyString)
          ++ ", 'content_type': " ++ rest)
    with (String PyStr.squote
            ((c ++ String PyStr.squote EmptyString)
             ++ ", 'content_type': " ++ rest)).
  rewrite (append_assoc c). reflexivity.
Qed.

(** X13.  When the content consists of printable ASCII characters other
    than the single quote and the backslash, the user message submitted for
    a valid request holds the content as it is, between single quotes after
    the key 'content' of the shown dictionary. *)
Theorem plain_content_reaches_the_prompt
    (backend : llm_call -> outcome) (api_key : string)
    (b : request_body) (r : SummaryRequest) :
  validate b = inr r ->
  50 <= PyStr.len (PyStr.strip (content r)) ->
  plain (content r) = true ->
  exists call u,
    snd (post_summarize backend api_key b)
    = [CallSummarize (request_args r); CallBackend call]
    /\ call_messages call = [(system, system_text); (user, u)]
    /\ PyStr.contains ("{'content': '" ++ content r ++ "', 'content_type': ") u
       = true.
Proof.
  intros Hv Hl Hp.
  exists (request_call r), (user_text (request_args r)).
  split; [rewrite (post_summarize_long backend api_key b r Hv Hl);
          reflexivity|].
  split; [reflexivity|].
  apply contains_user_text. rewrite str_chain_input.
  cbn [request_args arg_content]. rewrite (plain_repr_str (content r) Hp).
  rewrite quoted_content. apply contains_here.
Qed.

Lemma plain_content_reaches_the_prompt_witness :
  validate scenario_body = inr scenario_request
  /\ 50 <= PyStr.len (PyStr.strip (content scenario_request))
  /\ plain (content scenario_request) = true
  /\ exists call u,
       snd (post_summarize (completes_with "Fine.") "key" scenario_body)
       = [CallSummarize (request_args scenario_request); CallBackend call]
       /\ call_messages call = [(system, system_text); (user, u)]
       /\ PyStr.contains
            ("{'content': '" ++ scenario_content ++ "', 'content_type': ") u
          = true.
Proof.
  assert (Hl : 50 <= PyStr.len (PyStr.strip (content scenario_request)))
    by (vm_compute; discriminate).
  assert (Hp : plain (content scenario_request) = true) by reflexivity.
  split; [reflexivity|]. split; [exact Hl|]. split; [exact Hp|].
  apply (plain_content_reaches_the_prompt (completes_with "Fine.") "key"
           scenario_body scenario_request eq_refl Hl Hp).
Defined.

Lemma repr_char_nonempty (q c : ascii) :
  (1 <= String.length (PyStr.repr_char q c))%nat.
Proof.
  unfold PyStr.repr_char.
  repeat match goal with
         | |- context [if ?x then _ else _] => destruct x
         end; simpl; lia.
Qed.

Lemma repr_body_length (q : ascii) (s : string) :
  (String.length s <= String.length (PyStr.repr_body q s))%nat.
Proof.
  induction s as [|c s IH]; simpl; [lia|].
  rewrite length_append. pose proof (repr_char_nonempty q c). lia.
Qed.

Lemma repr_str_length (s : string) :
  PyStr.len s + 2 <= PyStr.len (PyStr.repr_str s).
Proof.
  unfold PyStr.repr_str, PyStr.len. cbv zeta. simpl String.length.
  rewrite length_append. simpl String.length.
  match goal with
  | |- context [PyStr.repr_body ?q s] => pose proof (repr_body_length q s)
  end.
  lia.
Qed.

Lemma user_text_length (a : summarize_args) :
  PyStr.len (user_text a) = 5 * PyStr.len (str (chain_input a)) + 288.
Proof.
  unfold user_text, PyStr.len. cbv zeta.
  generalize (str (chain_input a)). intros d.
  rewrite !length_append.
  change (String.length "Content Type: ") with 14%nat.
  simpl String.length. lia.
Qed.

(** X14.  The user message submitted for a valid request has 288
    characters of fixed text plus five times the length of the shown input
    dictionary; as the dictionary holds the content, the message is more
    than five times as long as the content. *)
Theorem prompt_holds_the_input_five_times
    (backend : llm_call -> outcome) (api_key : string)
    (b : request_body) (r : SummaryRequest) :
  validate b = inr r ->
  50 <= PyStr.len (PyStr.strip (content r)) ->
  exists call u,
    snd (post_summarize backend api_key b)
    = [CallSummarize (request_args r); CallBackend call]
    /\ call_messages call = [(system, system_text); (user, u)]
    /\ PyStr.len u
       = 5 * PyStr.len (str (chain_input (request_args r))) + 288
    /\ 5 * PyStr.len (content r) < PyStr.len u.
Proof.
  intros Hv Hl.
  exists (request_call r), (user_text (request_args r)).
  split; [rewrite (post_summarize_long backend api_key b r Hv Hl);
          reflexivity|].
  split; [reflexivity|].
  pose proof (user_text_length (request_args r)) as Hu.
  split; [exact Hu|]. rewrite Hu.
  rewrite str_chain_input. unfold PyStr.len at 2. rewrite !length_append.
  cbn [request_args arg_content].
  pose proof (repr_str_length (content r)) as Hr. unfold PyStr.len in *.
  lia.
Qed.

Lemma prompt_holds_the_input_five_times_witness :
  validate scenario_body = inr scenario_request
  /\ 50 <= PyStr.len (PyStr.strip (content scenario_request))
  /\ exists call u,
       snd (post_summarize (completes_with "Fine.") "key" scenario_body)
       = [CallSummarize (request_args scenario_request); CallBackend call]
       /\ call_messages call = [(system, system_text); (user, u)]
       /\ 5 * PyStr.len (content scenario_request) < PyStr.len u.
Proof.
  assert (Hl : 50 <= PyStr.len (PyStr.strip (content scenario_request)))
    by (vm_compute; discriminate).
  split; [reflexivity|]. split; [exact Hl|].
  destruct (prompt_holds_the_input_five_times (completes_with "Fine.") "key"
              scenario_body scenario_request eq_refl Hl)
    as [call [u [H1 [H2 [_ H4]]]]].
  exists call, u. repeat split; assumption.
Defined.

(* ================================================================== *)
(** ** Request bodies as JSON: values of another type *)
(* ================================================================== *)

(** The JSON layer agrees with the typed one on the bodies they share. *)
Lemma on_string_field {A} (check : supplied string -> violation + A)
    (v : supplied string) :
  on_string check (string_field v) = check v.
Proof. destruct v; reflexivity. Qed.

Lemma validate_json_to_json (b : request_body) :
  validate_json (to_json b) = validate b.
Proof.
  unfold validate_json, validate, to_json.
  cbn [json_content json_content_type json_summary_length json_style
       json_focus_points].
  rewrite !on_string_field. reflexivity.
Qed.

Lemma post_summarize_json_to_json (backend : llm_call -> outcome)
    (api_key : string) (b : request_body) :
  post_summarize_json backend api_key (to_json b)
  = post_summarize backend api_key b.
Proof.
  unfold post_summarize_json, post_summarize.
  rewrite validate_json_to_json. reflexivity.
Qed.

Lemma validate_json_rejects (b : json_body) :
  json_field_errors b <> [] -> validate_json b = inl (json_field_errors b).
Proof.
  unfold validate_json, json_field_errors.
  destruct (on_string check_content _),
    (on_string (check_tag "general" _) _),
    (check_summary_length _), (on_string (check_tag "professional" _) _),
    (on_string check_focus_points _); simpl; intros H; try reflexivity.
  now elim H.
Qed.

Lemma json_field_error_rejects (b : json_body) (loc : string)
    (why : violation) :
  In (loc, why) (json_field_errors b) ->
  validate_json b = inl (json_field_errors b).
Proof.
  intros H. apply validate_json_rejects. intros E. rewrite E in H. exact H.
Qed.

Lemma validate_json_inl (b : json_body) (errors : list field_error) :
  validate_json b = inl errors ->
  errors = json_field_errors b /\ errors <> [].
Proof.
  unfold validate_json, json_field_errors.
  destruct (on_string check_content _),
    (on_string (check_tag "general" _) _),
    (check_summary_length _), (on_string (check_tag "professional" _) _),
    (on_string check_focus_points _); simpl; intros H;
    try discriminate H; injection H as <-; split;
    try reflexivity; discriminate.
Qed.

Lemma validate_json_inr_iff (b : json_body) (r : SummaryRequest) :
  validate_json b = inr r
  <-> on_string check_content (json_content b) = inr (content r)
      /\ on_string (check_tag "general" validate_content_type)
                   (json_content_type b) = inr (content_type r)
      /\ check_summary_length (json_summary_length b)
         = inr (summary_length r)
      /\ on_string (check_tag "professional" validate_style) (json_style b)
         = inr (style r)
      /\ on_string check_focus_points (json_focus_points b)
         = inr (focus_points r).
Proof.
  split.
  - unfold validate_json.
    destruct (on_string check_content _),
      (on_string (check_tag "general" _) _),
      (check_summary_length _), (on_string (check_tag "professional" _) _),
      (on_string check_focus_points _); intros H; try discriminate H.
    injection H as <-. repeat split.
  - intros [H1 [H2 [H3 [H4 H5]]]]. destruct r. unfold validate_json.
    cbn [content content_type summary_length style focus_points] in *.
    rewrite H1, H2, H3, H4, H5. reflexivity.
Qed.

Lemma rejected_json_not_served (backend : llm_call -> outcome)
    (api_key : string) (b : json_body) (errors : list field_error) :
  validate_json b = inl errors ->
  post_summarize_json backend api_key b = (Response422 errors, []).
Proof. unfold post_summarize_json. now intros ->. Qed.

(** What [on_string] does, by the kind of the value. *)
Lemma on_string_cases {A} (check : supplied string -> violation + A)
    (v : option json) :
  (v = None /\ on_string check v = check Absent)
  \/ (v = Some JNull /\ on_string check v = check Null)
  \/ (exists s, v = Some (JString s) /\ on_string check v = check (Given s))
  \/ (exists j, v = Some j /\ not_a_string j = true
                /\ on_string check v = inl StringType).
Proof.
  destruct v as [[| b | z | s | l | m]|]; unfold on_string; simpl.
  - right; left. now split.
  - right; right; right. exists (JBool b). now repeat split.
  - right; right; right. exists (JInt z). now repeat split.
  - right; right; left. exists s. now split.
  - right; right; right. exists (JArray l). now repeat split.
  - right; right; right. exists (JObject m). now repeat split.
  - left. now split.
Qed.

Lemma json_content_inr_iff (v : option json) (c : string) :
  on_string check_content v = inr c
  <-> v = Some (JString c) /\ 50 <= PyStr.len c <= 50000.
Proof.
  destruct (on_string_cases check_content v)
    as [[-> E] | [[-> E] | [[s [-> E]] | [j [-> [Hj E]]]]]]; rewrite E.
  - simpl. split; [discriminate | intros [H _]; discriminate].
  - simpl. split; [discriminate | intros [H _]; discriminate].
  - rewrite check_content_inr_iff. split; intros [H R].
    + injection H as ->. now split.
    + injection H as ->. now split.
  - split; [discriminate|]. intros [H _]. injection H as ->. discriminate.
Qed.

Lemma json_content_type_inr_iff (v : option json) (o : option string) :
  on_string (check_tag "general" validate_content_type) v = inr o
  <-> (v = None /\ o = Some "general")
      \/ exists s, v = Some (JString s) /\ In s allowed_content_types
                   /\ o = Some s.
Proof.
  destruct (on_string_cases (check_tag "general" validate_content_type) v)
    as [[-> E] | [[-> E] | [[s [-> E]] | [j [-> [Hj E]]]]]]; rewrite E;
    try rewrite check_tag_content_type_inr_iff.
  - split; (intros [[_ H] | [s [H _]]]; [left; now split | discriminate]).
  - split; (intros [[H _] | [s [H _]]]; discriminate).
  - split; (intros [[H _] | [s' [H [Hin Ho]]]]; [discriminate|]);
      injection H as ->; right; exists s'; now repeat split.
  - split; [discriminate|].
    intros [[H _] | [s [H _]]]; [discriminate|].
    injection H as ->. discriminate.
Qed.

Lemma json_style_inr_iff (v : option json) (o : option string) :
  on_string (check_tag "professional" validate_style) v = inr o
  <-> (v = None /\ o = Some "professional")
      \/ exists s, v = Some (JString s) /\ In s allowed_styles /\ o = Some s.
Proof.
  destruct (on_string_cases (check_tag "professional" validate_style) v)
    as [[-> E] | [[-> E] | [[s [-> E]] | [j [-> [Hj E]]]]]]; rewrite E;
    try rewrite check_tag_style_inr_iff.
  - split; (intros [[_ H] | [s [H _]]]; [left; now split | discriminate]).
  - split; (intros [[H _] | [s [H _]]]; discriminate).
  - split; (intros [[H _] | [s' [H [Hin Ho]]]]; [discriminate|]);
      injection H as ->; right; exists s'; now repeat split.
  - split; [discriminate|].
    intros [[H _] | [s [H _]]]; [discriminate|].
    injection H as ->. discriminate.
Qed.

Lemma json_focus_points_inr_iff (v : option json) (o : option string) :
  on_string check_focus_points v = inr o
  <-> (v = None /\ o = Some "main ideas") \/ (v = Some JNull /\ o = None)
      \/ exists s, v = Some (JString s) /\ o = Some s.
Proof.
  destruct (on_string_cases check_focus_points v)
    as [[-> E] | [[-> E] | [[s [-> E]] | [j [-> [Hj E]]]]]]; rewrite E;
    try rewrite check_focus_points_inr_iff.
  - split; (intros [[_ H] | [[H _] | [s [H _]]]];
            [left; now split | discriminate | discriminate]).
  - split; (intros [[H _] | [[_ H] | [s [H _]]]];
            [discriminate | right; left; now split | discriminate]).
  - split; (intros [[H _] | [[H _] | [s' [H Ho]]]];
            [discriminate | discriminate |]);
      injection H as ->; right; right; exists s'; now split.
  - split; [discriminate|].
    intros [[H _] | [[H _] | [s [H _]]]]; try discriminate;
      injection H as ->; discriminate.
Qed.

(** C5, as stated, fails: a content type, or a style, that is the number 5
    is rejected by the type check of the field, before its validator runs;
    the only error is the type error, whose text, "Input should be a valid
    string", does not hold the list of the allowed values. *)
Lemma non_string_tag_counterexample :
  let wrong_type :=
    mk_json_body (Some (JString scenario_content)) (Some (JInt 5)) Absent
                 None None in
  let wrong_style :=
    mk_json_body (Some (JString scenario_content)) None Absent
                 (Some (JInt 5)) None in
  (validate_json wrong_type = inl [("content_type", StringType)]
   /\ PyStr.contains "general, article, email, report, technical, research"
        (violation_msg StringType) = false
   /\ post_summarize_json (completes_with "unused") "key" wrong_type
      = (Response422 [("content_type", StringType)], []))
  /\ (validate_json wrong_style = inl [("style", StringType)]
      /\ PyStr.contains "professional, casual, technical, academic"
           (violation_msg StringType) = false
      /\ post_summarize_json (completes_with "unused") "key" wrong_style
         = (Response422 [("style", StringType)], [])).
Proof. repeat split; reflexivity. Qed.

(** C5, amended.  A content type that is [null] or a string outside the six
    allowed values, and a style that is [null] or a string outside the four
    allowed values, is rejected, whatever the other fields hold: the errors
    carry, for that field, the [ValueError] of its validator, whose text
    contains the list of the allowed values joined by ", "; the endpoint
    answers 422 and calls nothing.  A content type or style of another JSON
    type (a number, a boolean, an array, an object) is rejected too, with
    the type error of the field and no error of its validator. *)
Theorem enumerated_string_tags_are_checked
    (backend : llm_call -> outcome) (api_key : string)
    (c ct st fp : option json) (sl : supplied Z) (j : json) :
  (j = JNull
   \/ (exists v, j = JString v
                 /\ ~ In v ["general"; "article"; "email"; "report";
                            "technical"; "research"]) ->
   exists errors text,
     validate_json (mk_json_body c (Some j) sl st fp) = inl errors
     /\ In ("content_type", ValueError text) errors
     /\ PyStr.contains
          "general, article, email, report, technical, research" text = true
     /\ PyStr.contains
          "general, article, email, report, technical, research"
          (violation_msg (ValueError text)) = true
     /\ post_summarize_json backend api_key (mk_json_body c (Some j) sl st fp)
        = (Response422 errors, []))
  /\ (j = JNull
      \/ (exists v, j = JString v
                    /\ ~ In v ["professional"; "casual"; "technical";
                               "academic"]) ->
      exists errors text,
        validate_json (mk_json_body c ct sl (Some j) fp) = inl errors
        /\ In ("style", ValueError text) errors
        /\ PyStr.contains
             "professional, casual, technical, academic" text = true
        /\ PyStr.contains
             "professional, casual, technical, academic"
             (violation_msg (ValueError text)) = true
        /\ post_summarize_json backend api_key
             (mk_json_body c ct sl (Some j) fp)
           = (Response422 errors, []))
  /\ (not_a_string j = true ->
      (exists errors,
         validate_json (mk_json_body c (Some j) sl st fp) = inl errors
         /\ In ("content_type", StringType) errors
         /\ (forall text, ~ In ("content_type", ValueError text) errors)
         /\ post_summarize_json backend api_key
              (mk_json_body c (Some j) sl st fp)
            = (Response422 errors, []))
      /\ (exists errors,
            validate_json (mk_json_body c ct sl (Some j) fp) = inl errors
            /\ In ("style", StringType) errors
            /\ (forall text, ~ In ("style", ValueError text) errors)
            /\ post_summarize_json backend api_key
                 (mk_json_body c ct sl (Some j) fp)
               = (Response422 errors, []))).
Proof.
  split; [|split].
  - intros Hj.
    assert (Hchk : on_string (check_tag "general" validate_content_type)
                             (Some j)
                   = inl (ValueError ("content_type must be one of: "
                                      ++ PyStr.join ", "
                                           allowed_content_types))).
    { destruct Hj as [-> | [v [-> Hnot]]]; [reflexivity|].
      unfold on_string, as_string, check_tag, validate_content_type.
      rewrite (not_in_allowed v allowed_content_types Hnot). reflexivity. }
    assert (Herr : In ("content_type",
                       ValueError ("content_type must be one of: "
                                   ++ PyStr.join ", " allowed_content_types))
                      (json_field_errors (mk_json_body c (Some j) sl st fp))).
    { unfold json_field_errors. cbn [json_content_type]. rewrite Hchk.
      apply in_or_app. right. now left. }
    pose proof (json_field_error_rejects _ _ _ Herr) as Hrej.
    eexists; eexists. split; [exact Hrej|]. split; [exact Herr|].
    split; [reflexivity|]. split; [reflexivity|].
    apply rejected_json_not_served. exact Hrej.
  - intros Hj.
    assert (Hchk : on_string (check_tag "professional" validate_style)
                             (Some j)
                   = inl (ValueError ("style must be one of: "
                                      ++ PyStr.join ", " allowed_styles))).
    { destruct Hj as [-> | [v [-> Hnot]]]; [reflexivity|].
      unfold on_string, as_string, check_tag, validate_style.
      rewrite (not_in_allowed v allowed_styles Hnot). reflexivity. }
    assert (Herr : In ("style",
                       ValueError ("style must be one of: "
                                   ++ PyStr.join ", " allowed_styles))
                      (json_field_errors (mk_json_body c ct sl (Some j) fp))).
    { unfold json_field_errors. cbn [json_style]. rewrite Hchk.
      apply in_or_app. right. apply in_or_app. right.
      apply in_or_app. right. apply in_or_app. left. now left. }
    pose proof (json_field_error_rejects _ _ _ Herr) as Hrej.
    eexists; eexists. split; [exact Hrej|]. split; [exact Herr|].
    split; [reflexivity|]. split; [reflexivity|].
    apply rejected_json_not_served. exact Hrej.
  - intros Hj.
    assert (Hty : forall A (check : supplied string -> violation + A),
               on_string check (Some j) = inl StringType).
    { intros A check. destruct j; try discriminate Hj; reflexivity. }
    split.
    + assert (Herr : In ("content_type", StringType)
                        (json_field_errors
                           (mk_json_body c (Some j) sl st fp))).
      { unfold json_field_errors. cbn [json_content_type]. rewrite Hty.
        apply in_or_app. right. now left. }
      pose proof (json_field_error_rejects _ _ _ Herr) as Hrej.
      eexists. split; [exact Hrej|]. split; [exact Herr|].
      split; [|apply rejected_json_not_served; exact Hrej].
      intros text Hin. unfold json_field_errors in Hin.
      cbn [json_content json_content_type json_summary_length json_style
           json_focus_points] in Hin.
      rewrite Hty in Hin.
      destruct (on_string check_content c),
        (check_summary_length sl),
        (on_string (check_tag "professional" validate_style) st),
        (on_string check_focus_points fp);
        simpl in Hin; intuition discriminate.
    + assert (Herr : In ("style", StringType)
                        (json_field_errors
                           (mk_json_body c ct sl (Some j) fp))).
      { unfold json_field_errors. cbn [json_style]. rewrite Hty.
        apply in_or_app. right. apply in_or_app. right.
        apply in_or_app. right. apply in_or_app. left. now left. }
      pose proof (json_field_error_rejects _ _ _ Herr) as Hrej.
      eexists. split; [exact Hrej|]. split; [exact Herr|].
      split; [|apply rejected_json_not_served; exact Hrej].
      intros text Hin. unfold json_field_errors in Hin.
      cbn [json_content json_content_type json_summary_length json_style
           json_focus_points] in Hin.
      rewrite Hty in Hin.
      destruct (on_string check_content c),
        (on_string (check_tag "general" validate_content_type) ct),
        (check_summary_length sl),
        (on_string check_focus_points fp);
        simpl in Hin; intuition discriminate.
Qed.

Lemma enumerated_string_tags_are_checked_witness :
  let c := Some (JString scenario_content) in
  post_summarize_json (completes_with "unused") "key"
    (mk_json_body c (Some (JString "poetry")) Absent None None)
  = (Response422
       [("content_type",
         ValueError "content_type must be one of: general, article, email, report, technical, research")],
     [])
  /\ post_summarize_json (completes_with "unused") "key"
       (mk_json_body c None Absent (Some (JString "Professional")) None)
     = (Response422
          [("style",
            ValueError "style must be one of: professional, casual, technical, academic")],
        [])
  /\ not_a_string (JBool true) = true
  /\ post_summarize_json (completes_with "unused") "key"
       (mk_json_body c (Some (JBool true)) Absent None None)
     = (Response422 [("content_type", StringType)], []).
Proof.
  intros c. split; [|split; [|split; [reflexivity|]]].
  - destruct (enumerated_string_tags_are_checked (completes_with "unused")
                "key" c None None None Absent (JString "poetry")) as [H _].
    destruct H as [errors [text [Hv [_ [_ [_ Hp]]]]]].
    { right. exists "poetry". split; [reflexivity|].
      apply (not_in_by_eqb "poetry" allowed_content_types eq_refl). }
    rewrite Hp. f_equal. f_equal.
    assert (E : inl errors
                = validate_json (mk_json_body c (Some (JString "poetry"))
                                              Absent None None))
      by (symmetry; exact Hv).
    injection E as ->. reflexivity.
  - destruct (enumerated_string_tags_are_checked (completes_with "unused")
                "key" c None None None Absent (JString "Professional"))
      as [_ [H _]].
    destruct H as [errors [text [Hv [_ [_ [_ Hp]]]]]].
    { right. exists "Professional". split; [reflexivity|].
      apply (not_in_by_eqb "Professional" allowed_styles eq_refl). }
    rewrite Hp. f_equal. f_equal.
    assert (E : inl errors
                = validate_json
                    (mk_json_body c None Absent
                                  (Some (JString "Professional")) None))
      by (symmetry; exact Hv).
    injection E as ->. reflexivity.
  - destruct (enumerated_string_tags_are_checked (completes_with "unused")
                "key" c None None None Absent (JBool true)) as [_ [_ H]].
    destruct (H eq_refl) as [[errors [Hv [_ [_ Hp]]]] _].
    rewrite Hp. f_equal. f_equal.
    assert (E : inl errors
                = validate_json (mk_json_body c (Some (JBool true))
                                              Absent None None))
      by (symmetry; exact Hv).
    injection E as ->. reflexivity.
Defined.

(** X2.  A JSON body is accepted exactly when each field, on its own, is
    admissible, and the validated model holds the supplied values unchanged
    (the content is not trimmed), with the default for an absent field:
    content a string of 50 to 50000 characters; content type and style
    absent or a string among the allowed values ([null] is not admitted);
    summary length absent, [null], or an integer between 20 and 500; focus
    points absent, [null] or any string.  A string field that holds a
    number, a boolean, an array or an object is not accepted. *)
Theorem validate_json_accepts_iff (b : json_body) (r : SummaryRequest) :
  validate_json b = inr r
  <-> (json_content b = Some (JString (content r))
       /\ 50 <= PyStr.len (content r) <= 50000)
      /\ ((json_content_type b = None /\ content_type r = Some "general")
          \/ exists v, json_content_type b = Some (JString v)
                       /\ In v ["general"; "article"; "email"; "report";
                                "technical"; "research"]
                       /\ content_type r = Some v)
      /\ ((json_summary_length b = Absent /\ summary_length r = Some 100)
          \/ (json_summary_length b = Null /\ summary_length r = None)
          \/ exists z, json_summary_length b = Given z /\ 20 <= z <= 500
                       /\ summary_length r = Some z)
      /\ ((json_style b = None /\ style r = Some "professional")
          \/ exists v, json_style b = Some (JString v)
                       /\ In v ["professional"; "casual"; "technical";
                                "academic"]
                       /\ style r = Some v)
      /\ ((json_focus_points b = None /\ focus_points r = Some "main ideas")
          \/ (json_focus_points b = Some JNull /\ focus_points r = None)
          \/ exists s, json_focus_points b = Some (JString s)
                       /\ focus_points r = Some s).
Proof.
  rewrite validate_json_inr_iff, json_content_inr_iff,
    json_content_type_inr_iff, check_summary_length_inr_iff,
    json_style_inr_iff, json_focus_points_inr_iff.
  reflexivity.
Qed.

Lemma validate_json_accepts_iff_witness :
  validate_json (mk_json_body (Some (JString scenario_content))
                              (Some (JString "email")) Null None
                              (Some (JString "dates")))
  = inr (mk_request scenario_content (Some "email") None
                    (Some "professional") (Some "dates")).
Proof.
  apply validate_json_accepts_iff.
  cbn [content content_type summary_length style focus_points json_content
       json_content_type json_summary_length json_style json_focus_points].
  split; [split; [reflexivity | vm_compute; split; discriminate]|].
  split; [right; exists "email"; repeat split; simpl; tauto|].
  split; [right; left; now split|].
  split; [left; now split|].
  right; right. exists "dates". now split.
Defined.

Lemma in_errors_at {A} (loc loc' : string) (why : violation)
    (r : violation + A) :
  In (loc, why) (errors_at loc' r) <-> loc = loc' /\ r = inl why.
Proof.
  destruct r as [w|a]; simpl.
  - split.
    + intros [H | []]. injection H as -> ->. now split.
    + intros [-> H]. injection H as ->. now left.
  - split; [intros [] | intros [_ H]; discriminate].
Qed.

Lemma fails_iff_not_passes {A} (r : violation + A) :
  (exists why, r = inl why) <-> ~ exists a, r = inr a.
Proof.
  destruct r as [w|a]; split.
  - intros _ [a H]. discriminate.
  - eauto.
  - intros [why H]. discriminate.
  - intros H. elim H. eauto.
Qed.

(** A field has an error exactly when its own check fails. *)
Lemma json_errors_content (b : json_body) :
  (exists why, In ("content", why) (json_field_errors b))
  <-> exists why, on_string check_content (json_content b) = inl why.
Proof.
  unfold json_field_errors. split; intros [why H]; exists why.
  - rewrite !in_app_iff, !in_errors_at in H.
    destruct H as [[_ H] | [[H _] | [[H _] | [[H _] | [H _]]]]];
      try discriminate H. exact H.
  - rewrite !in_app_iff, !in_errors_at. left. now split.
Qed.

Lemma json_errors_content_type (b : json_body) :
  (exists why, In ("content_type", why) (json_field_errors b))
  <-> exists why,
        on_string (check_tag "general" validate_content_type)
                  (json_content_type b) = inl why.
Proof.
  unfold json_field_errors. split; intros [why H]; exists why.
  - rewrite !in_app_iff, !in_errors_at in H.
    destruct H as [[H _] | [[_ H] | [[H _] | [[H _] | [H _]]]]];
      try discriminate H. exact H.
  - rewrite !in_app_iff, !in_errors_at. right; left. now split.
Qed.

Lemma json_errors_summary_length (b : json_body) :
  (exists why, In ("summary_length", why) (json_field_errors b))
  <-> exists why, check_summary_length (json_summary_length b) = inl why.
Proof.
  unfold json_field_errors. split; intros [why H]; exists why.
  - rewrite !in_app_iff, !in_errors_at in H.
    destruct H as [[H _] | [[H _] | [[_ H] | [[H _] | [H _]]]]];
      try discriminate H. exact H.
  - rewrite !in_app_iff, !in_errors_at. right; right; left. now split.
Qed.

Lemma json_errors_style (b : json_body) :
  (exists why, In ("style", why) (json_field_errors b))
  <-> exists why,
        on_string (check_tag "professional" validate_style) (json_style b)
        = inl why.
Proof.
  unfold json_field_errors. split; intros [why H]; exists why.
  - rewrite !in_app_iff, !in_errors_at in H.
    destruct H as [[H _] | [[H _] | [[H _] | [[_ H] | [H _]]]]];
      try discriminate H. exact H.
  - rewrite !in_app_iff, !in_errors_at. right; right; right; left. now split.
Qed.

Lemma json_errors_focus_points (b : json_body) :
  (exists why, In ("focus_points", why) (json_field_errors b))
  <-> exists why,
        on_string check_focus_points (json_focus_points b) = inl why.
Proof.
  unfold json_field_errors. split; intros [why H]; exists why.
  - rewrite !in_app_iff, !in_errors_at in H.
    destruct H as [[H _] | [[H _] | [[H _] | [[H _] | [_ H]]]]];
      try discriminate H. exact H.
  - rewrite !in_app_iff, !in_errors_at. right; right; right; right.
    now split.
Qed.

Lemma summary_length_fails_iff (v : supplied Z) :
  (exists why, check_summary_length v = inl why)
  <-> exists z, v = Given z /\ (z < 20 \/ 500 < z).
Proof.
  destruct v as [| |z]; simpl.
  - split; [intros [why H] | intros [z [H _]]]; discriminate.
  - split; [intros [why H] | intros [z [H _]]]; discriminate.
  - destruct (z <? 20) eqn:E1.
    + apply Z.ltb_lt in E1. split; [|eauto]. intros _. exists z. split; auto.
    + apply Z.ltb_ge in E1. destruct (z >? 500) eqn:E2;
        rewrite Z.gtb_ltb in E2.
      * apply Z.ltb_lt in E2. split; [|eauto]. intros _. exists z.
        split; auto.
      * apply Z.ltb_ge in E2. split.
        -- intros [why H]. discriminate.
        -- intros [z' [H Hz]]. injection H as ->. lia.
Qed.

Lemma focus_points_fails_iff (v : option json) :
  (exists why, on_string check_focus_points v = inl why)
  <-> exists j, v = Some j /\ not_a_string j = true.
Proof.
  destruct (on_string_cases check_focus_points v)
    as [[-> E] | [[-> E] | [[s [-> E]] | [j [-> [Hj E]]]]]]; rewrite E.
  - split; [intros [why H] | intros [j [H _]]]; discriminate.
  - split; [intros [why H]; discriminate|].
    intros [j [H Hj]]. injection H as <-. discriminate.
  - split; [intros [why H]; discriminate|].
    intros [j [H Hj]]. injection H as <-. discriminate.
  - split; eauto.
Qed.

(** X3.  Validation does not stop at the first bad field.  The errors of a
    rejected JSON body name exactly the fields that are not admissible on
    their own, each once and in declaration order: content when it is not a
    string of 50 to 50000 characters; content type, or style, when it is
    present and not a string among the allowed values; summary length when
    it is an integer outside 20 to 500; focus points when it is present and
    neither [null] nor a string. *)
Theorem json_errors_name_the_bad_fields
    (b : json_body) (errors : list field_error) :
  validate_json b = inl errors ->
  errors <> []
  /\ NoDup (map fst errors)
  /\ map fst errors
     = filter (fun loc => existsb (String.eqb loc) (map fst errors))
              ["content"; "content_type"; "summary_length"; "style";
               "focus_points"]
  /\ ((exists why, In ("content", why) errors)
      <-> ~ exists c, json_content b = Some (JString c)
                      /\ 50 <= PyStr.len c <= 50000)
  /\ ((exists why, In ("content_type", why) errors)
      <-> ~ (json_content_type b = None
             \/ exists v, json_content_type b = Some (JString v)
                          /\ In v ["general"; "article"; "email"; "report";
                                   "technical"; "research"]))
  /\ ((exists why, In ("summary_length", why) errors)
      <-> exists z, json_summary_length b = Given z /\ (z < 20 \/ 500 < z))
  /\ ((exists why, In ("style", why) errors)
      <-> ~ (json_style b = None
             \/ exists v, json_style b = Some (JString v)
                          /\ In v ["professional"; "casual"; "technical";
                                   "academic"]))
  /\ ((exists why, In ("focus_points", why) errors)
      <-> exists j, json_focus_points b = Some j /\ not_a_string j = true).
Proof.
  intros H. apply validate_json_inl in H. destruct H as [-> Hne].
  split; [exact Hne|].
  split; [|split].
  - unfold json_field_errors.
    destruct (on_string check_content _),
      (on_string (check_tag "general" _) _),
      (check_summary_length _), (on_string (check_tag "professional" _) _),
      (on_string check_focus_points _);
      cbn [errors_at app map fst];
      repeat (constructor; [simpl; intuition discriminate|]); constructor.
  - unfold json_field_errors.
    destruct (on_string check_content _),
      (on_string (check_tag "general" _) _),
      (check_summary_length _), (on_string (check_tag "professional" _) _),
      (on_string check_focus_points _); reflexivity.
  - split; [|split; [|split; [|split]]].
    + rewrite json_errors_content, fails_iff_not_passes.
      split; intros Hn [c Hc]; apply Hn; exists c;
        apply json_content_inr_iff; exact Hc.
    + rewrite json_errors_content_type, fails_iff_not_passes.
      split; intros Hn.
      * intros [Hc | [v [Hv Hin]]]; apply Hn.
        -- exists (Some "general"). apply json_content_type_inr_iff.
           left. now split.
        -- exists (Some v). apply json_content_type_inr_iff.
           right. exists v. now repeat split.
      * intros [o Ho]. apply json_content_type_inr_iff in Ho. apply Hn.
        destruct Ho as [[Hc _] | [v [Hv [Hin _]]]]; [now left|].
        right. exists v. now split.
    + rewrite json_errors_summary_length. apply summary_length_fails_iff.
    + rewrite json_errors_style, fails_iff_not_passes.
      split; intros Hn.
      * intros [Hc | [v [Hv Hin]]]; apply Hn.
        -- exists (Some "professional"). apply json_style_inr_iff.
           left. now split.
        -- exists (Some v). apply json_style_inr_iff.
           right. exists v. now repeat split.
      * intros [o Ho]. apply json_style_inr_iff in Ho. apply Hn.
        destruct Ho as [[Hc _] | [v [Hv [Hin _]]]]; [now left|].
        right. exists v. now split.
    + rewrite json_errors_focus_points. apply focus_points_fails_iff.
Qed.

Lemma json_errors_name_the_bad_fields_witness :
  let b := mk_json_body (Some (JString "Too short")) (Some (JInt 5))
                        (Given 5) (Some (JString "loud"))
                        (Some (JArray [])) in
  validate_json b
  = inl [ ("content", MinLength 50); ("content_type", StringType);
          ("summary_length", NotGe 20);
          ("style",
           ValueError "style must be one of: professional, casual, technical, academic");
          ("focus_points", StringType) ]
  /\ NoDup ["content"; "content_type"; "summary_length"; "style";
            "focus_points"].
Proof.
  intros b.
  assert (H : validate_json b
              = inl [ ("content", MinLength 50); ("content_type", StringType);
                      ("summary_length", NotGe 20);
                      ("style",
                       ValueError "style must be one of: professional, casual, technical, academic");
                      ("focus_points", StringType) ]) by reflexivity.
  split; [exact H|].
  destruct (json_errors_name_the_bad_fields b _ H) as [_ [Hnd _]].
  exact Hnd.
Defined.
